(** * TradeMaster: order placement, margin validation and the batch runner

    A shallow embedding of [order_manager.py], [notification_manager.py]
    and the batch method of [main.py].  Python values are a small inductive
    type, Python floats are IEEE binary64 values ([spec_float] with
    [prec = 53], [emax = 1024]), exceptions are an explicit [Raise] result,
    and the broker, the clock and the watchlist file are an environment that
    is threaded through every call together with a chronological trace of
    the external calls the program makes.  Calls of [logger] are left out:
    they return nothing, do not raise and decide nothing. *)

From Stdlib Require Import ZArith List String Ascii Bool Lia DecimalString.
From Stdlib Require Import Floats.SpecFloat.
Import ListNotations.

Local Open Scope string_scope.
Local Open Scope Z_scope.

(** ** Python values and exceptions *)

Module Py.

Definition float := spec_float.

Definition prec : Z := 53.
Definition emax : Z := 1024.

(** [float('inf')] and [0.0]. *)
Definition inf : float := S754_infinity false.
Definition zero : float := S754_zero false.

Definition fmul (x y : float) : float := SFmul prec emax x y.

(** [a >= b] on floats; false as soon as one side is NaN. *)
Definition fge (a b : float) : bool := SFleb b a.

(** Truth value of a float: every float but the two zeros. *)
Definition ftruthy (x : float) : bool :=
  match x with
  | S754_zero _ => false
  | _ => true
  end.

(** Sign test used to say "a non-negative amount": [+0.0], [-0.0],
    positive finite numbers and [+inf]. *)
Definition fnonneg (x : float) : bool :=
  match x with
  | S754_zero _ => true
  | S754_infinity s => negb s
  | S754_finite s _ _ => negb s
  | S754_nan => false
  end.


(** The values that travel through the program: cells of the watchlist
    and decoded JSON answers of the broker. *)
#[warning="-register-all"]
Inductive value : Type :=
| VNone
| VBool (b : bool)
| VInt (z : Z)
| VFloat (x : float)
| VStr (s : string)
| VList (l : list value)
| VDict (d : list (string * value)).

(** An exception: its class and [str(e)].  Every exception of the model
    derives from [Exception], so [except Exception] and a bare
    [except] both catch it. *)
Record exn : Type := Exn { exn_class : string; exn_msg : string }.

Inductive result (A : Type) : Type :=
| Ok (a : A)
| Raise (e : exn).
Arguments Ok {A} a.
Arguments Raise {A} e.

Definition rbind {A B} (r : result A) (k : A -> result B) : result B :=
  match r with
  | Ok a => k a
  | Raise e => Raise e
  end.

Definition is_ok {A} (r : result A) : bool :=
  match r with
  | Ok _ => true
  | Raise _ => false
  end.

(** What the interpreter provides and the repository does not define:
    parsing of numeric literals by [int(str)] and [float(str)], and
    [str()] / f-string formatting of a value. *)
Record runtime : Type := Runtime {
  int_of_str : string -> option Z;
  float_of_str : string -> option float;
  str_of : value -> string
}.

Fixpoint dict_lookup (k : string) (d : list (string * value)) : option value :=
  match d with
  | [] => None
  | (k', v) :: d' => if String.eqb k k' then Some v else dict_lookup k d'
  end.

(** [v.get(k, default)]: only a dict has [get]. *)
Definition dict_get (v : value) (k : string) (default : value) : result value :=
  match v with
  | VDict d =>
      match dict_lookup k d with
      | Some x => Ok x
      | None => Ok default
      end
  | _ => Raise (Exn "AttributeError" "object has no attribute 'get'")
  end.

(** [v[k]] with a string key. *)
Definition getitem (v : value) (k : string) : result value :=
  match v with
  | VDict d =>
      match dict_lookup k d with
      | Some x => Ok x
      | None => Raise (Exn "KeyError" k)
      end
  | VList _ => Raise (Exn "TypeError" "list indices must be integers or slices, not str")
  | VStr _ => Raise (Exn "TypeError" "string indices must be integers, not 'str'")
  | _ => Raise (Exn "TypeError" "object is not subscriptable")
  end.

(** [v[0]]. The keys of a decoded JSON object are strings, so a dict has
    no key [0]. *)
Definition getitem0 (v : value) : result value :=
  match v with
  | VList (x :: _) => Ok x
  | VList [] => Raise (Exn "IndexError" "list index out of range")
  | VStr (String c _) => Ok (VStr (String c EmptyString))
  | VStr EmptyString => Raise (Exn "IndexError" "string index out of range")
  | VDict _ => Raise (Exn "KeyError" "0")
  | _ => Raise (Exn "TypeError" "object is not subscriptable")
  end.

(** [float(z)] for an int: rounded to nearest even, [OverflowError] when
    the int is too large for a float. *)
Definition float_of_int (z : Z) : result float :=
  match binary_normalize prec emax z 0 false with
  | S754_infinity _ => Raise (Exn "OverflowError" "int too large to convert to float")
  | x => Ok x
  end.

(** [int(x)] for a float: truncation toward zero. *)
Definition int_of_float (x : float) : result Z :=
  match x with
  | S754_zero _ => Ok 0
  | S754_finite s m e =>
      let a := if 0 <=? e then Z.shiftl (Zpos m) e else Z.shiftr (Zpos m) (- e) in
      Ok (if s then - a else a)
  | S754_infinity _ =>
      Raise (Exn "OverflowError" "cannot convert float infinity to integer")
  | S754_nan => Raise (Exn "ValueError" "cannot convert float NaN to integer")
  end.

Section Conversions.
Variable rt : runtime.

(** [float(v)] *)
Definition to_float (v : value) : result float :=
  match v with
  | VFloat x => Ok x
  | VInt z => float_of_int z
  | VBool b => float_of_int (if b then 1 else 0)
  | VStr s =>
      match float_of_str rt s with
      | Some x => Ok x
      | None => Raise (Exn "ValueError" "could not convert string to float")
      end
  | _ => Raise (Exn "TypeError" "float() argument must be a string or a real number")
  end.

(** [int(v)] *)
Definition to_int (v : value) : result Z :=
  match v with
  | VInt z => Ok z
  | VBool b => Ok (if b then 1 else 0)
  | VFloat x => int_of_float x
  | VStr s =>
      match int_of_str rt s with
      | Some z => Ok z
      | None => Raise (Exn "ValueError" "invalid literal for int() with base 10")
      end
  | _ => Raise (Exn "TypeError" "int() argument must be a string or a real number")
  end.

(** [x * n] with a float on the left and an int on the right: the int
    is converted first. *)
Definition fmul_int (x : float) (n : Z) : result float :=
  rbind (float_of_int n) (fun y => Ok (fmul x y)).
End Conversions.

(** [s.split(sep)] for a one-character separator. *)
Fixpoint str_split (sep : ascii) (s : string) : list string :=
  match s with
  | EmptyString => [EmptyString]
  | String c rest =>
      if Ascii.eqb c sep then EmptyString :: str_split sep rest
      else match str_split sep rest with
           | h :: t => String c h :: t
           | [] => [String c EmptyString]
           end
  end.

(** [c in s] *)
Fixpoint str_contains (c : ascii) (s : string) : bool :=
  match s with
  | EmptyString => false
  | String c' rest => Ascii.eqb c' c || str_contains c rest
  end.

Definition colon : ascii := ":"%char.
Definition nl : string := String (ascii_of_nat 10) EmptyString.

(** [', '.join(l)] *)
Fixpoint str_join (sep : string) (l : list string) : string :=
  match l with
  | [] => EmptyString
  | [x] => x
  | x :: rest => x ++ sep ++ str_join sep rest
  end.

(** [repr] of a list of plain identifiers, as an f-string prints it. *)
Definition repr_str_list (l : list string) : string :=
  "[" ++ str_join ", " (map (fun s => "'" ++ s ++ "'") l) ++ "]".

End Py.
Export Py.

(** ** Data model *)

(** One row of the watchlist, as [iterrows] hands it to [place_order].
    The two text columns are strings.  The two numeric columns are whatever
    the CSV reader made of the cell (an int, a float, NaN for an empty cell,
    a string), and the code converts them with [int()] and [float()]; the
    activity flag is used as a boolean mask. *)
Record stock_entry : Type := StockEntry {
  trading_symbol : string;
  quantity : value;
  order_type : string;
  limit_price : value;
  is_active : value
}.

(** The [order_params] dict of [place_order]. [price] is the only optional
    key. *)
Record order_params : Type := OrderParams {
  tradingsymbol : string;
  exchange : string;
  transaction_type : string;
  op_quantity : Z;
  product : string;
  op_order_type : string;
  price : option float
}.

(** The dict [place_order] returns, and the [timestamp] key the batch
    runner adds to it. A missing key is [None]. *)
Record order_result : Type := OrderResult {
  success : bool;
  order_id : option value;
  error : option string;
  symbol : string;
  timestamp : option string
}.

(** The table [pd.read_csv] returns: its column labels and its rows. The
    fields of a row whose column is absent are never read, because
    [load_stock_config] raises before it touches a row. *)
Record dataframe : Type := DataFrame {
  columns : list string;
  rows : list stock_entry
}.

(** ** The outside world *)

(** Everything the program calls and does not define: the four operations
    of the broker client, the clock, the sleeping of the process, and the
    reading of the watchlist file.  [World] is the hidden state of all of
    it; an operation returns its answer, or raises, and the next state. *)
Record environment (World : Type) : Type := Environment {
  kite_order_margins : order_params -> World -> result value * World;
  kite_ltp : string -> World -> result value * World;
  kite_margins : World -> result value * World;
  kite_place_order : order_params -> World -> result value * World;
  now_weekday : World -> Z;
  now_strftime : World -> string;
  elapse : Z -> World -> World;
  read_csv : World -> result dataframe
}.
Arguments kite_order_margins {World} _ _ _.
Arguments kite_ltp {World} _ _ _.
Arguments kite_margins {World} _ _.
Arguments kite_place_order {World} _ _ _.
Arguments now_weekday {World} _ _.
Arguments now_strftime {World} _ _.
Arguments elapse {World} _ _ _.
Arguments read_csv {World} _ _.

(** What the program does to the outside, in the order it does it. *)
Inductive event : Type :=
| EvOrderMargins (p : order_params)
| EvLtp (key : string)
| EvMargins
| EvPlaceOrder (p : order_params)
| EvSleep (seconds : Z)
| EvEmail (subject body : string)
| EvTelegram (text : string)
| EvNotification (notification_type subject message : string).

Record state (World : Type) : Type := State {
  world : World;
  trace : list event
}.
Arguments State {World} _ _.
Arguments world {World} _.
Arguments trace {World} _.

(** ** A state and exception monad *)

Module Run.

Definition M (World A : Type) : Type := state World -> result A * state World.

Definition ret {World A} (a : A) : M World A := fun st => (Ok a, st).

Definition raise {World A} (e : exn) : M World A := fun st => (Raise e, st).

Definition bind {World A B} (m : M World A) (k : A -> M World B) : M World B :=
  fun st =>
    match m st with
    | (Ok a, st') => k a st'
    | (Raise e, st') => (Raise e, st')
    end.

(** [try: body  except Exception as e: handler e] *)
Definition try_except {World A} (body : M World A) (handler : exn -> M World A)
  : M World A :=
  fun st =>
    match body st with
    | (Ok a, st') => (Ok a, st')
    | (Raise e, st') => handler e st'
    end.

(** A pure computation that may raise. *)
Definition lift {World A} (r : result A) : M World A := fun st => (r, st).

(** A call to the outside: the event is recorded, the world moves on. *)
Definition call {World A} (ev : event) (f : World -> result A * World) : M World A :=
  fun st =>
    let (r, w) := f (world st) in
    (r, State w (trace st ++ [ev])).

Definition emit {World} (ev : event) : M World unit :=
  fun st => (Ok tt, State (world st) (trace st ++ [ev])).

End Run.
Import Run.

Declare Scope run_scope.
Delimit Scope run_scope with run.
Notation "x <- m ;; k" := (bind m (fun x => k))
  (at level 61, m at next level, right associativity) : run_scope.
Notation "m ;; k" := (bind m (fun _ => k))
  (at level 61, right associativity) : run_scope.

(** ** order_manager.py: ZerodhaOrderManager *)

Section Program.
Context {World : Type}.
Variable env : environment World.
Variable rt : runtime.

Local Open Scope run_scope.
Local Abbreviation M := (Run.M World).

Definition required_columns : list string :=
  ["trading_symbol"; "quantity"; "order_type"; "limit_price"; "is_active"].

(** [[col for col in required_columns if col not in df.columns]] *)
Definition missing_columns_of (df : dataframe) : list string :=
  filter (fun col => negb (existsb (String.eqb col) (columns df))) required_columns.

(** The boolean mask [df[df['is_active']]]: a column that is not made of
    booleans is not a mask, and the indexing raises. *)
Fixpoint mask_active (l : list stock_entry) : result (list stock_entry) :=
  match l with
  | [] => Ok []
  | r :: l' =>
      match is_active r with
      | VBool b =>
          rbind (mask_active l') (fun tl => Ok (if b then r :: tl else tl))
      | _ => Raise (Exn "KeyError" "is_active is not a boolean mask")
      end
  end.

(** [load_stock_config]: the [except] clause logs and re-raises, so an
    exception of the body is the exception of the call. *)
Definition load_stock_config (w : World) : result (list stock_entry) :=
  rbind (read_csv env w) (fun df =>
    let missing_columns := missing_columns_of df in
    match missing_columns with
    | _ :: _ =>
        Raise (Exn "ValueError"
                 ("Stock config is missing required columns: "
                  ++ repr_str_list missing_columns))
    | [] => mask_active (rows df)
    end).

(** The dict literal at the top of the [try] block, with the [price] key
    added when the order is a LIMIT order and the limit price is truthy. *)
Definition make_order_params (symbol : string) (quantity : Z)
    (order_type : string) (limit_price : option float) : order_params :=
  {| tradingsymbol := last (str_split colon symbol) EmptyString;
     exchange := if str_contains colon symbol
                 then hd EmptyString (str_split colon symbol)
                 else "NSE";
     transaction_type := "BUY";
     op_quantity := quantity;
     product := "CNC";
     op_order_type := order_type;
     price := match limit_price with
              | Some p => if String.eqb order_type "LIMIT" && ftruthy p
                          then Some p else None
              | None => None
              end |}.

(** [float(margins[0].get('total', 0))] *)
Definition reported_total (margins : value) : result float :=
  rbind (getitem0 margins) (fun m0 =>
  rbind (dict_get m0 "total" (VInt 0)) (fun total =>
  to_float rt total)).

(** [float(ltp[key]["last_price"])] *)
Definition quoted_price (ltp : value) (key : string) : result float :=
  rbind (getitem ltp key) (fun quote =>
  rbind (getitem quote "last_price") (fun last_price =>
  to_float rt last_price)).

(** [float(margins.get('equity', {}).get('available', {}).get('cash', 0))] *)
Definition available_cash (margins : value) : result float :=
  rbind (dict_get margins "equity" (VDict [])) (fun equity =>
  rbind (dict_get equity "available" (VDict [])) (fun available =>
  rbind (dict_get available "cash" (VInt 0)) (fun cash =>
  to_float rt cash))).

Definition ltp_key (params : order_params) : string :=
  exchange params ++ ":" ++ tradingsymbol params.

(** [_check_margin_required]; the request goes to the broker as the
    one-element list [[order_params]]. *)
Definition _check_margin_required (params : order_params) : M float :=
  try_except
    (margins <- call (EvOrderMargins params) (kite_order_margins env params) ;;
     lift (reported_total margins))
    (fun _ =>
       let quantity := op_quantity params in
       let key := ltp_key params in
       try_except
         (ltp <- call (EvLtp key) (kite_ltp env key) ;;
          lift (rbind (quoted_price ltp key) (fun price =>
                fmul_int price quantity)))
         (fun _ => ret inf)).

(** [_has_sufficient_margin] *)
Definition _has_sufficient_margin (margin_required : float) : M bool :=
  try_except
    (margins <- call EvMargins (kite_margins env) ;;
     available_margin <- lift (available_cash margins) ;;
     ret (fge available_margin margin_required))
    (fun _ => ret true).

Definition insufficient_margin_msg (symbol : string) (margin_required : float)
  : string :=
  "Insufficient margin for " ++ symbol ++ ". Required: "
  ++ str_of rt (VFloat margin_required).

(** The body of the [try] block of [place_order]: one submission attempt.
    It returns the success dict or raises. *)
Definition submit (symbol : string) (quantity : Z) (order_type : string)
    (limit_price : option float) : M order_result :=
  let order_params := make_order_params symbol quantity order_type limit_price in
  margin_required <- _check_margin_required order_params ;;
  sufficient <- _has_sufficient_margin margin_required ;;
  if negb sufficient
  then raise (Exn "ValueError" (insufficient_margin_msg symbol margin_required))
  else
    order_id <- call (EvPlaceOrder order_params) (kite_place_order env order_params) ;;
    ret {| success := true; order_id := Some order_id; error := None;
           symbol := symbol; timestamp := None |}.

(** [time.sleep(secs)]: a negative length is a [ValueError]. *)
Definition time_sleep (secs : Z) : M unit :=
  if secs <? 0
  then raise (Exn "ValueError" "sleep length must be non-negative")
  else fun st => (Ok tt, State (elapse env secs (world st)) (trace st ++ [EvSleep secs])).

(** [float(stock_entry['limit_price']) if order_type == 'LIMIT' else None] *)
Definition limit_price_of (stock_entry : stock_entry) : result (option float) :=
  if String.eqb (order_type stock_entry) "LIMIT"
  then rbind (to_float rt (limit_price stock_entry)) (fun p => Ok (Some p))
  else Ok None.

(** [place_order] with [retries] standing for [retry_attempts]: the test
    [retry_attempts > 0] is [retries = S _], and the recursive call gets
    [retry_attempts - 1].  The four lines before the [try] are outside of it,
    so what they raise leaves the function. *)
Fixpoint place_order_rec (stock_entry : stock_entry) (retries : nat)
    (retry_delay : Z) : M order_result :=
  let symbol := trading_symbol stock_entry in
  quantity <- lift (to_int rt (quantity stock_entry)) ;;
  let order_type := order_type stock_entry in
  limit_price <- lift (limit_price_of stock_entry) ;;
  try_except
    (submit symbol quantity order_type limit_price)
    (fun e =>
       match retries with
       | S retries' =>
           time_sleep retry_delay ;;
           place_order_rec stock_entry retries' retry_delay
       | O =>
           ret {| success := false; order_id := None; error := Some (exn_msg e);
                  symbol := symbol; timestamp := None |}
       end).

(** [place_order(stock_entry, retry_attempts, retry_delay)]; an int that
    is not positive leaves no retry. *)
Definition place_order (stock_entry : stock_entry) (retry_attempts retry_delay : Z)
  : M order_result :=
  place_order_rec stock_entry (Z.to_nat retry_attempts) retry_delay.

(** ** notification_manager.py: NotificationManager *)

(** The two switches left after [_setup_clients]. *)
Record notification_manager : Type := NotificationManager {
  enable_email : bool;
  enable_telegram : bool
}.

Variable nm : notification_manager.

(** [send_notification]: [_send_email] and [_send_telegram] catch every
    exception of the delivery, so only the attempt is recorded; the
    notification itself is always logged. *)
Definition send_notification (subject message notification_type : string) : M unit :=
  let formatted_message :=
    "[" ++ notification_type ++ "] " ++ subject ++ nl ++ nl ++ message in
  (if enable_email nm then emit (EvEmail subject formatted_message) else ret tt) ;;
  (if enable_telegram nm then emit (EvTelegram formatted_message) else ret tt) ;;
  emit (EvNotification notification_type subject message).

(** The delivery attempts one call of [send_notification] makes. *)
Definition deliveries (subject message notification_type : string) : list event :=
  let formatted_message :=
    "[" ++ notification_type ++ "] " ++ subject ++ nl ++ nl ++ message in
  ((if enable_email nm then [EvEmail subject formatted_message] else [])
   ++ (if enable_telegram nm then [EvTelegram formatted_message] else []))%list.

Definition timestamp_text (order_details : order_result) : string :=
  match timestamp order_details with
  | Some t => t
  | None => "Not available"
  end.

Definition order_placed_subject (order_details : order_result) : string :=
  "Order Placed: " ++ symbol order_details.

Definition order_placed_message (order_details : order_result) : string :=
  "Order ID: "
  ++ str_of rt (match order_id order_details with Some v => v | None => VNone end)
  ++ nl ++ "Symbol: " ++ symbol order_details
  ++ nl ++ "Timestamp: " ++ timestamp_text order_details.

Definition order_failed_subject (order_details : order_result) : string :=
  "Order Failed: " ++ symbol order_details.

Definition order_failed_message (order_details : order_result)
    (error_message : string) : string :=
  "Symbol: " ++ symbol order_details
  ++ nl ++ "Error: " ++ error_message
  ++ nl ++ "Timestamp: " ++ timestamp_text order_details.

Definition notify_order_placed (order_details : order_result) : M unit :=
  send_notification (order_placed_subject order_details)
                    (order_placed_message order_details) "SUCCESS".

Definition notify_order_failed (order_details : order_result)
    (error_message : string) : M unit :=
  send_notification (order_failed_subject order_details)
                    (order_failed_message order_details error_message) "ERROR".

(** ** main.py: TradeMaster.place_scheduled_orders *)

(** [RETRY_ATTEMPTS] and [RETRY_DELAY_SECONDS] of the process environment,
    as the integers their text denotes; [None] when the variable is not
    set. *)
Record settings : Type := Settings {
  RETRY_ATTEMPTS : option Z;
  RETRY_DELAY_SECONDS : option Z
}.

Variable cfg : settings.

(** [int(os.getenv(name, default))] *)
Definition getenv_int (v : option Z) (default : Z) : Z :=
  match v with
  | Some z => z
  | None => default
  end.

Definition with_timestamp (r : order_result) (t : string) : order_result :=
  {| success := success r; order_id := order_id r; error := error r;
     symbol := symbol r; timestamp := Some t |}.

(** The [for] loop over [stock_config.iterrows()], with [all_results] as
    its accumulator. *)
Fixpoint process_stocks (stocks : list stock_entry) (all_results : list order_result)
  : M (list order_result) :=
  match stocks with
  | [] => ret all_results
  | stock :: rest =>
      result <- place_order stock
                  (getenv_int (RETRY_ATTEMPTS cfg) 3)
                  (getenv_int (RETRY_DELAY_SECONDS cfg) 2) ;;
      now <- (fun st => (Ok (now_strftime env (world st)), st)) ;;
      let result := with_timestamp result now in
      let all_results := (all_results ++ [result])%list in
      (if success result
       then notify_order_placed result
       else
         match error result with
         | Some err => notify_order_failed result err
         | None => raise (Exn "KeyError" "error")
         end) ;;
      process_stocks rest all_results
  end.

(** The body of the summary notification. *)
Definition summary_text (total successful failed : Z) : string :=
  "Orders placed: " ++ str_of rt (VInt total)
  ++ nl ++ "Successful: " ++ str_of rt (VInt successful)
  ++ nl ++ "Failed: " ++ str_of rt (VInt failed).

Definition summary_message (all_results : list order_result) : string :=
  let successful_orders := Z.of_nat (List.length (filter success all_results)) in
  let failed_orders := Z.of_nat (List.length all_results) - successful_orders in
  summary_text (Z.of_nat (List.length all_results)) successful_orders failed_orders.

(** [place_scheduled_orders]. It returns [None]; the model returns the
    list [all_results] the loop built (empty when the batch did not run),
    so that the outcomes can be spoken about. *)
Definition place_scheduled_orders : M (list order_result) :=
  fun st =>
    let is_weekday := now_weekday env (world st) <? 5 in
    if negb is_weekday then (Ok [], st)
    else
      match load_stock_config (world st) with
      | Raise e =>
          (send_notification "Stock Configuration Error"
             ("Failed to load stock configuration: " ++ exn_msg e) "ERROR" ;;
           ret []) st
      | Ok stock_config =>
          (all_results <- process_stocks stock_config [] ;;
           send_notification "Order Placement Summary"
             (summary_message all_results) "INFO" ;;
           ret all_results) st
      end.

End Program.

(** ** Reading a trace *)

Definition is_order_margins (ev : event) : bool :=
  match ev with EvOrderMargins _ => true | _ => false end.

Definition is_place_order (ev : event) : bool :=
  match ev with EvPlaceOrder _ => true | _ => false end.

Definition is_notification (ev : event) : bool :=
  match ev with EvNotification _ _ _ => true | _ => false end.

(** Every execution of the [try] block of [place_order] begins with one
    [order_margins] request and makes no other, so the number of these
    requests is the number of submission attempts. *)
Definition attempts_in (tr : list event) : nat :=
  List.length (filter is_order_margins tr).

(** Calls of the broker's place-order operation. *)
Definition placements_in (tr : list event) : nat :=
  List.length (filter is_place_order tr).

(** Total time passed to [time.sleep], in seconds. *)
Definition slept_in (tr : list event) : Z :=
  fold_right (fun ev acc => match ev with EvSleep d => d + acc | _ => acc end) 0 tr.

(** The calls of [send_notification], in order. *)
Definition notifications_in (tr : list event) : list event :=
  filter is_notification tr.



(** Identity of two floats as values (NaN is NaN, +0.0 is not -0.0);
    this is not Python's [==]. *)
Definition float_same (x y : float) : bool :=
  match x, y with
  | S754_zero a, S754_zero b => Bool.eqb a b
  | S754_infinity a, S754_infinity b => Bool.eqb a b
  | S754_nan, S754_nan => true
  | S754_finite a m e, S754_finite b m' e' => Bool.eqb a b && Pos.eqb m m' && Z.eqb e e'
  | _, _ => false
  end.

Definition order_params_same (p q : order_params) : bool :=
  String.eqb (tradingsymbol p) (tradingsymbol q)
  && String.eqb (exchange p) (exchange q)
  && String.eqb (transaction_type p) (transaction_type q)
  && Z.eqb (op_quantity p) (op_quantity q)
  && String.eqb (product p) (product q)
  && String.eqb (op_order_type p) (op_order_type q)
  && match price p, price q with
     | Some a, Some b => float_same a b
     | None, None => true
     | _, _ => false
     end.


(** The request [place_order] derives from an entry whose cells convert. *)
Definition entry_params (rt : runtime) (e : stock_entry) : option order_params :=
  match to_int rt (quantity e), limit_price_of rt e with
  | Ok q, Ok lp => Some (make_order_params (trading_symbol e) q (order_type e) lp)
  | _, _ => None
  end.

(** The message of the notification sent when columns are missing. *)
Definition config_error_message (df : dataframe) : string :=
  "Failed to load stock configuration: "
  ++ "Stock config is missing required columns: "
  ++ repr_str_list (missing_columns_of df).

(** The failure dict of [place_order]. *)
Definition failure (symbol msg : string) : order_result :=
  {| success := false; order_id := None; error := Some msg;
     symbol := symbol; timestamp := None |}.

(** A returned dict has the keys of the branch that built it. *)
Definition well_formed (r : order_result) : bool :=
  if success r
  then match order_id r, error r with Some _, None => true | _, _ => false end
  else match order_id r, error r with None, Some _ => true | _, _ => false end.


(** The delivery attempts that go with a notification. *)
Definition deliveries_of (nm : notification_manager) (ev : event) : list event :=
  match ev with
  | EvNotification t subject message => deliveries nm subject message t
  | _ => []
  end.


(** An entry whose cells convert: [int(quantity)] succeeds, and so does
    [float(limit_price)] when the order is a LIMIT order. *)
Definition convertible (rt : runtime) (e : stock_entry) : bool :=
  is_ok (to_int rt (quantity e)) && is_ok (limit_price_of rt e).

(** ** Further readings of values, requests and traces *)

(** [x != x]: the float is NaN. *)
Definition is_nan (x : float) : bool :=
  match x with
  | S754_nan => true
  | _ => false
  end.





(** The state in which [place_order] starts its attempt number [k + 1]:
    the state reached when the first [k] attempts raised and each was
    followed by its sleep; [None] when one of them did not raise, or a sleep
    was refused. *)
Fixpoint after_failures {World : Type} (env : environment World) (rt : runtime)
    (symbol : string) (quantity : Z) (order_type : string)
    (limit_price : option float) (retry_delay : Z) (k : nat) (st : state World)
  : option (state World) :=
  match k with
  | O => Some st
  | S k' =>
      match submit env rt symbol quantity order_type limit_price st with
      | (Raise _, st1) =>
          match time_sleep env retry_delay st1 with
          | (Ok _, st2) =>
              after_failures env rt symbol quantity order_type limit_price
                retry_delay k' st2
          | (Raise _, _) => None
          end
      | (Ok _, _) => None
      end
  end.





(** ** Test doubles

    Small concrete environments, in the manner of the mocks a test suite
    would use: the theorems below are run on them. *)

Module Mock.

(** Prints integers and strings, and nothing else. *)
Definition plain_runtime : runtime :=
  Runtime (fun _ => None) (fun _ => None)
          (fun v => match v with
                    | VInt z => NilZero.string_of_int (Z.to_int z)
                    | VStr s => s
                    | _ => "?"
                    end).

Definition quiet : notification_manager := NotificationManager false false.

Definition defaults : settings := Settings None None.

(** A broker that answers every call the same way; day [weekday]; the
    watchlist file reads as [csv]. *)
Definition constant_env (order_margins ltp margins place : result value)
    (weekday : Z) (csv : result dataframe) : environment unit :=
  {| kite_order_margins := fun _ w => (order_margins, w);
     kite_ltp := fun _ w => (ltp, w);
     kite_margins := fun w => (margins, w);
     kite_place_order := fun _ w => (place, w);
     now_weekday := fun _ => weekday;
     now_strftime := fun _ => "2024-01-01 09:30:00";
     elapse := fun _ w => w;
     read_csv := fun _ => csv |}.

Definition unreachable {A} : result A :=
  Raise (Exn "NetworkException" "broker unreachable").

Definition reliance : stock_entry :=
  StockEntry "NFO:RELIANCE" (VInt 10) "MARKET" (VFloat S754_nan) (VBool true).

Definition infy : stock_entry :=
  StockEntry "INFY" (VInt 5) "LIMIT" (VInt 1500) (VBool true).


Definition watchlist (l : list stock_entry) : result dataframe :=
  Ok (DataFrame required_columns l).

(** Every broker operation raises. *)
Definition down (csv : result dataframe) : environment unit :=
  constant_env unreachable unreachable unreachable unreachable 0 csv.

Definition account (c : value) : value :=
  VDict [("equity", VDict [("available", VDict [("cash", c)])])].

Definition cash (z : Z) : value := account (VInt z).

(** Only the account lookup works, and it reports [c] as the cash. *)
Definition account_only (c : value) : environment unit :=
  constant_env unreachable unreachable (Ok (account c)) unreachable 0 (Ok (DataFrame [] [])).

(** A broker that reports a margin of 100 per order, [z] of available
    cash, and accepts every order. *)
Definition healthy (z : Z) (csv : result dataframe) : environment unit :=
  constant_env (Ok (VList [VDict [("total", VInt 100)]]))
               (Ok (VDict []))
               (Ok (cash z))
               (Ok (VStr "240101000000001"))
               0 csv.

(** The margin call answers without a [total]; nothing else works but
    the account lookup. *)
Definition no_total (z : Z) : environment unit :=
  constant_env (Ok (VList [VDict [("type", VStr "equity")]]))
               unreachable (Ok (cash z)) unreachable 0 (watchlist []).

(** The margin call raises; the last traded price of every key is [p]. *)
Definition price_only (p : value) (key : string) : environment unit :=
  constant_env unreachable
               (Ok (VDict [(key, VDict [("last_price", p)])]))
               (Ok (cash 0)) unreachable 0 (watchlist []).

Definition start : state unit := State tt [].

(** An account that is short of cash at the first lookup and funded
    afterwards; the state of this world is the number of lookups made. *)
Definition topped_up : environment nat :=
  {| kite_order_margins := fun _ w => (Ok (VList [VDict [("total", VInt 100)]]), w);
     kite_ltp := fun _ w => (unreachable, w);
     kite_margins := fun w => (Ok (cash (if Nat.eqb w 0 then 50 else 500)), S w);
     kite_place_order := fun _ w => (Ok (VStr "240101000000001"), w);
     now_weekday := fun _ => 0;
     now_strftime := fun _ => "2024-01-01 09:30:00";
     elapse := fun _ w => w;
     read_csv := fun _ => watchlist [] |}.

End Mock.

(** ** auth_manager.py, and the start of the application in main.py

    The part of the program that runs before any order: the sign-in with
    the broker, the two managers' constructors, and the [.env] file.  The
    process environment and [self.access_token] are kept as data; the
    KiteConnect client, the file system, [load_dotenv], the Telegram client
    and the logging set-up are the outside, reached through [system]. *)

Module Text.

(** [s.startswith(prefix)] *)
Fixpoint startswith (s prefix : string) {struct prefix} : bool :=
  match prefix with
  | EmptyString => true
  | String c p =>
      match s with
      | EmptyString => false
      | String d s' => Ascii.eqb d c && startswith s' p
      end
  end.

(** [s.endswith(suffix)] for a one-character suffix. *)
Fixpoint endswith_char (s : string) (c : ascii) : bool :=
  match s with
  | EmptyString => false
  | String d EmptyString => Ascii.eqb d c
  | String _ s' => endswith_char s' c
  end.

Definition newline : ascii := ascii_of_nat 10.

(** The lines of a text, each with its line end, as [readlines()] of a
    file opened in text mode returns them; the text is what that mode
    delivers, with its line ends already turned into ["\n"]. *)
Fixpoint readlines (text : string) : list string :=
  match text with
  | EmptyString => []
  | String c rest =>
      if Ascii.eqb c newline then String c EmptyString :: readlines rest
      else match readlines rest with
           | [] => [String c EmptyString]
           | l :: ls => String c l :: ls
           end
  end.

(** The text [writelines(lines)] writes: the lines one after the other,
    nothing put between them. *)
Fixpoint writelines (lines : list string) : string :=
  match lines with
  | [] => EmptyString
  | l :: ls => l ++ writelines ls
  end.

(** [c.lower()] and [s.lower()] on ASCII letters; no other character has
    a lower case that is one of the letters of "true". *)
Definition lower_char (c : ascii) : ascii :=
  let n := nat_of_ascii c in
  if Nat.leb 65 n && Nat.leb n 90 then ascii_of_nat (n + 32) else c.

Fixpoint lower (s : string) : string :=
  match s with
  | EmptyString => EmptyString
  | String c s' => String (lower_char c) (lower s')
  end.

(** Truth value of an optional string: [None] and [""] are false. *)
Definition truthy (s : option string) : bool :=
  match s with
  | Some (String _ _) => true
  | _ => false
  end.

(** [posixpath.join(a, b)] *)
Definition path_join (a b : string) : string :=
  if startswith b "/" then b
  else if String.eqb a "" || endswith_char a "/"%char then a ++ b
  else a ++ "/" ++ b.

End Text.
Import Text.

(** ** Lines of text *)

Module Lines.

Definition carriage_return : ascii := ascii_of_nat 13.

(** What the text mode does to the characters of a file on input: both
    ["\r\n"] and a lone ["\r"] are delivered as ["\n"]. *)
Fixpoint universal_newlines (raw : string) : string :=
  match raw with
  | EmptyString => EmptyString
  | String c rest =>
      if Ascii.eqb c carriage_return
      then match rest with
           | String d rest' =>
               if Ascii.eqb d newline
               then String newline (universal_newlines rest')
               else String newline (universal_newlines rest)
           | EmptyString => String newline EmptyString
           end
      else String c (universal_newlines rest)
  end.

(** The character [c] does not occur in [s]. *)
Definition without (c : ascii) (s : string) : bool := negb (str_contains c s).

(** No line end inside: neither ["\n"] nor ["\r"]. *)
Definition plain (s : string) : bool :=
  without newline s && without carriage_return s.

(** A full line: it ends with ["\n"] and has no other. *)
Fixpoint is_line (l : string) : bool :=
  match l with
  | EmptyString => false
  | String c rest =>
      if Ascii.eqb c newline
      then match rest with EmptyString => true | _ => false end
      else is_line rest
  end.

(** The end of a text that does not end with ["\n"]. *)
Definition is_open_line (l : string) : bool :=
  match l with
  | EmptyString => false
  | _ => without newline l
  end.

(** Full lines, the last of which may be open. *)
Fixpoint lines_ok (ls : list string) : bool :=
  match ls with
  | [] => true
  | [l] => is_line l || is_open_line l
  | l :: rest => is_line l && lines_ok rest
  end.

(** The lines a later [readlines()] finds in a file that holds [written]. *)
Definition reread (written : string) : list string :=
  readlines (universal_newlines written).

End Lines.
Import Lines.

(** The process environment, [os.environ]. *)
Definition environment_variables : Type := list (string * string).

Fixpoint env_lookup (name : string) (vars : environment_variables) : option string :=
  match vars with
  | [] => None
  | (k, v) :: rest => if String.eqb name k then Some v else env_lookup name rest
  end.

(** [os.environ[key] = value]: the name must not be empty nor hold ["="],
    and neither string may hold a NUL character. *)
Definition env_assign (key value : string) (vars : environment_variables)
  : result environment_variables :=
  if String.eqb key "" || str_contains "="%char key
  then Raise (Exn "ValueError" "illegal environment variable name")
  else if str_contains Ascii.zero key || str_contains Ascii.zero value
  then Raise (Exn "ValueError" "embedded null byte")
  else Ok ((key, value) :: vars).

(** What this part of the program asks of the outside. *)
Inductive syscall : Type :=
| SysNewClient (api_key : string)
| SysSetAccessToken (token : string)
| SysProfile
| SysGenerateSession (request_token api_secret : string)
| SysReadText (path : string)
| SysWriteText (path text : string)
| SysLoadDotenv (path : string)
| SysTelegramBot (token : string)
| SysMakedirs (path : string)
| SysOpenLog (path : string).

(** The outside: the KiteConnect client and the server behind it, the
    file system, and the libraries that are not part of the repository. *)
Record system (W : Type) : Type := System {
  sys_new_client : string -> W -> W;
  sys_set_access_token : string -> W -> W;
  sys_profile : W -> result value * W;
  sys_generate_session : string -> string -> W -> result value * W;
  sys_read_text : string -> W -> result string * W;
  sys_write_text : string -> string -> W -> result unit * W;
  sys_path_exists : string -> W -> bool;
  sys_load_dotenv : string -> W -> environment_variables -> environment_variables;
  sys_telegram_bot : string -> W -> result unit * W;
  sys_makedirs : string -> W -> result unit * W;
  sys_open_log : string -> W -> result unit * W;
  sys_today : W -> string
}.
Arguments sys_new_client {W} _ _ _.
Arguments sys_set_access_token {W} _ _ _.
Arguments sys_profile {W} _ _.
Arguments sys_generate_session {W} _ _ _ _.
Arguments sys_read_text {W} _ _ _.
Arguments sys_write_text {W} _ _ _ _.
Arguments sys_path_exists {W} _ _ _.
Arguments sys_load_dotenv {W} _ _ _ _.
Arguments sys_telegram_bot {W} _ _ _.
Arguments sys_makedirs {W} _ _ _.
Arguments sys_open_log {W} _ _ _.
Arguments sys_today {W} _ _.

(** The state of the process: the outside, [os.environ], the field
    [access_token] of the authentication manager, and the calls made. *)
Record process (W : Type) : Type := Process {
  outside : W;
  environ : environment_variables;
  access_token : option string;
  syscalls : list syscall
}.
Arguments Process {W} _ _ _ _.
Arguments outside {W} _.
Arguments environ {W} _.
Arguments access_token {W} _.
Arguments syscalls {W} _.

(** The fields of a [ZerodhaAuthManager] that do not change. *)
Record auth_manager : Type := AuthManager {
  env_file_path : string;
  api_key : string;
  api_secret : string
}.

(** [f"{key}={value}\n"] *)
Definition env_line (key value : string) : string := key ++ "=" ++ value ++ nl.

(** The loop of [_update_env_variable]: the first line that starts with
    [key=] is replaced and the search stops there. *)
Fixpoint replace_first (key value : string) (lines : list string)
  : list string * bool :=
  match lines with
  | [] => ([], false)
  | line :: rest =>
      if startswith line (key ++ "=")
      then (env_line key value :: rest, true)
      else let (rest', found) := replace_first key value rest in
           (line :: rest', found)
  end.

(** The list of lines [_update_env_variable] writes back. *)
Definition updated_lines (key value : string) (lines : list string) : list string :=
  let (lines', found) := replace_first key value lines in
  if found then lines' else (lines' ++ [env_line key value])%list.

(** The first line that starts with [key=], if there is one. *)
Definition find_line (key : string) (lines : list string) : option string :=
  find (fun line => startswith line (key ++ "=")) lines.

Section Startup.
Context {W : Type}.
Variable sys : system W.

Local Open Scope run_scope.
Local Abbreviation M := (Run.M (process W)).

(** A call to the outside of this part. *)
Definition ask {A} (c : syscall) (f : W -> result A * W) : M A :=
  fun st =>
    let p := world st in
    let (r, w) := f (outside p) in
    (r, State (Process w (environ p) (access_token p) (syscalls p ++ [c])) (trace st)).

(** A call to the outside that cannot raise. *)
Definition tell (c : syscall) (f : W -> W) : M unit :=
  ask c (fun w => (Ok tt, f w)).

(** [os.getenv(name)] *)
Definition getenv (name : string) : M (option string) :=
  fun st => (Ok (env_lookup name (environ (world st))), st).

(** [os.environ[key] = value] *)
Definition putenv (key value : string) : M unit :=
  fun st =>
    let p := world st in
    match env_assign key value (environ p) with
    | Ok vars => (Ok tt, State (Process (outside p) vars (access_token p) (syscalls p))
                           (trace st))
    | Raise e => (Raise e, st)
    end.

(** [load_dotenv(path)] *)
Definition load_dotenv (path : string) : M unit :=
  fun st =>
    let p := world st in
    (Ok tt, State (Process (outside p)
                     (sys_load_dotenv sys path (outside p) (environ p))
                     (access_token p) (syscalls p ++ [SysLoadDotenv path]))
              (trace st)).

Definition get_access_token : M (option string) :=
  fun st => (Ok (access_token (world st)), st).

Definition set_self_access_token (t : string) : M unit :=
  fun st =>
    let p := world st in
    (Ok tt, State (Process (outside p) (environ p) (Some t) (syscalls p)) (trace st)).

(** [ZerodhaAuthManager._update_env_variable] *)
Definition _update_env_variable (self : auth_manager) (key value : string) : M unit :=
  putenv key value ;;
  text <- ask (SysReadText (env_file_path self)) (sys_read_text sys (env_file_path self)) ;;
  let lines := readlines text in
  let lines := updated_lines key value lines in
  ask (SysWriteText (env_file_path self) (writelines lines))
      (sys_write_text sys (env_file_path self) (writelines lines)).

(** [ZerodhaAuthManager.is_token_valid]; the log line reads
    [profile['user_name']], inside the [try]. *)
Definition is_token_valid (self : auth_manager) : M bool :=
  token <- get_access_token ;;
  match token with
  | Some (String c t) =>
      try_except
        (tell (SysSetAccessToken (String c t))
              (sys_set_access_token sys (String c t)) ;;
         profile <- ask SysProfile (sys_profile sys) ;;
         _ <- lift (getitem profile "user_name") ;;
         ret true)
        (fun _ => ret false)
  | _ => ret false
  end.

(** [ZerodhaAuthManager.generate_access_token_from_request_token]; the
    [except] clause logs and re-raises. *)
Definition generate_access_token_from_request_token (self : auth_manager)
    (request_token : option string) : M string :=
  request_token <- (if truthy request_token then ret request_token
                    else getenv "REQUEST_TOKEN") ;;
  match request_token with
  | Some (String c t) =>
      try_except
        (data <- ask (SysGenerateSession (String c t) (api_secret self))
                     (sys_generate_session sys (String c t) (api_secret self)) ;;
         access_token <- lift (getitem data "access_token") ;;
         match access_token with
         | VStr token =>
             _update_env_variable self "ACCESS_TOKEN" token ;;
             tell (SysSetAccessToken token) (sys_set_access_token sys token) ;;
             set_self_access_token token ;;
             ret token
         | _ => raise (Exn "TypeError" "str expected")
         end)
        (fun e => raise e)
  | _ =>
      raise (Exn "ValueError"
               "Request token not provided or not found in environment variables.")
  end.

(** [ZerodhaAuthManager.__init__] *)
Definition auth_manager_init (env_file_path : string) : M auth_manager :=
  load_dotenv env_file_path ;;
  api_key <- getenv "API_KEY" ;;
  api_secret <- getenv "API_SECRET" ;;
  token <- getenv "ACCESS_TOKEN" ;;
  (fun st =>
     let p := world st in
     (Ok tt, State (Process (outside p) (environ p) token (syscalls p)) (trace st))) ;;
  match api_key, api_secret with
  | Some (String a k), Some (String b s) =>
      tell (SysNewClient (String a k)) (sys_new_client sys (String a k)) ;;
      ret (AuthManager env_file_path (String a k) (String b s))
  | _, _ =>
      raise (Exn "ValueError" "API key or secret not found in environment variables.")
  end.

(** [os.getenv(name, default).lower() == 'true'] *)
Definition flag_is_on (v : option string) : bool :=
  String.eqb (lower (match v with Some s => s | None => "False" end)) "true".

(** [NotificationManager._setup_clients], on the fields [__init__] has
    just read. *)
Definition _setup_clients (enable_email enable_telegram : bool)
    (email_sender email_password : option string) (email_recipients : list string)
    (telegram_bot_token telegram_chat_id : option string) : M notification_manager :=
  enable_telegram <-
    (if enable_telegram
     then try_except
            (if negb (truthy telegram_bot_token) || negb (truthy telegram_chat_id)
             then ret false
             else ask (SysTelegramBot
                         (match telegram_bot_token with Some t => t | None => "" end))
                      (sys_telegram_bot sys
                         (match telegram_bot_token with Some t => t | None => "" end)) ;;
                  ret true)
            (fun _ => ret false)
     else ret false) ;;
  let enable_email :=
    if enable_email
    then if negb (truthy email_sender) || negb (truthy email_password)
            || match email_recipients with [] => true | _ => false end
         then false else true
    else false in
  ret (NotificationManager enable_email enable_telegram).

(** [NotificationManager.__init__] *)
Definition notification_manager_init (env_file_path : string) : M notification_manager :=
  load_dotenv env_file_path ;;
  enable_email <- getenv "ENABLE_EMAIL_NOTIFICATIONS" ;;
  email_sender <- getenv "EMAIL_SENDER" ;;
  email_password <- getenv "EMAIL_PASSWORD" ;;
  email_recipients <- getenv "EMAIL_RECIPIENTS" ;;
  enable_telegram <- getenv "ENABLE_TELEGRAM_NOTIFICATIONS" ;;
  telegram_bot_token <- getenv "TELEGRAM_BOT_TOKEN" ;;
  telegram_chat_id <- getenv "TELEGRAM_CHAT_ID" ;;
  _setup_clients (flag_is_on enable_email) (flag_is_on enable_telegram)
    email_sender email_password
    (str_split ","%char (match email_recipients with Some s => s | None => "" end))
    telegram_bot_token telegram_chat_id.

(** [NotificationManager.notify_authentication_failure] *)
Definition notify_authentication_failure (nm : notification_manager)
    (error_message : string) : M unit :=
  send_notification nm "Zerodha Authentication Failed"
    ("Error: " ++ error_message ++ nl
     ++ "Please check your credentials and regenerate access token.")
    "ERROR".

(** [setup_logging] of main.py *)
Definition setup_logging (log_dir : string) : M unit :=
  ask (SysMakedirs log_dir) (sys_makedirs sys log_dir) ;;
  today <- (fun st => (Ok (sys_today sys (outside (world st))), st)) ;;
  let log_file := path_join log_dir (today ++ ".log") in
  ask (SysOpenLog log_file) (sys_open_log sys log_file).

Definition no_request_token : string :=
  "No request token available. Manual login required.".

(** [TradeMaster._setup_kite_client]; its last line builds the order
    manager around the client and has no other effect. *)
Definition _setup_kite_client (am : auth_manager) (nm : notification_manager) : M unit :=
  valid <- is_token_valid am ;;
  if valid then ret tt
  else
    request_token <- getenv "REQUEST_TOKEN" ;;
    if truthy request_token
    then _ <- generate_access_token_from_request_token am request_token ;; ret tt
    else notify_authentication_failure nm no_request_token ;;
         raise (Exn "ValueError" no_request_token).

(** The lines of [TradeMaster.__init__] up to the two managers: logging,
    the [.env] file (made from the template when it is missing), and the
    constructors. *)
Definition build_components (config_dir log_dir : string)
  : M (auth_manager * notification_manager) :=
  setup_logging log_dir ;;
  let env_file := path_join config_dir ".env" in
  there <- (fun st => (Ok (sys_path_exists sys env_file (outside (world st))), st)) ;;
  (if negb there
   then
     let env_template := path_join config_dir ".env.template" in
     there <- (fun st => (Ok (sys_path_exists sys env_template (outside (world st))), st)) ;;
     if there
     then template_content <- ask (SysReadText env_template)
                                  (sys_read_text sys env_template) ;;
          ask (SysWriteText env_file template_content)
              (sys_write_text sys env_file template_content)
     else raise (Exn "FileNotFoundError" "Environment template file not found")
   else ret tt) ;;
  load_dotenv env_file ;;
  am <- auth_manager_init env_file ;;
  nm <- notification_manager_init env_file ;;
  ret (am, nm).

(** [TradeMaster.__init__] *)
Definition trade_master_init (config_dir log_dir : string)
  : M (auth_manager * notification_manager) :=
  components <- build_components config_dir log_dir ;;
  let (am, nm) := components in
  try_except
    (_setup_kite_client am nm)
    (fun e => notify_authentication_failure nm (exn_msg e) ;; raise e) ;;
  ret (am, nm).

End Startup.

(** The tokens handed to the client with [kite.set_access_token], in the
    order of the calls. *)
Definition tokens_set (cs : list syscall) : list string :=
  flat_map (fun c => match c with SysSetAccessToken t => [t] | _ => [] end) cs.

(** A computation that sends nothing: no notification, no delivery and no
    request to the broker is added to the trace. *)
Definition silent {World A : Type} (m : Run.M World A) : Prop :=
  forall st, trace (snd (m st)) = trace st.

(** What [notify_authentication_failure] leaves in the trace. *)
Definition failure_report (nm : notification_manager) (error_message : string)
  : list event :=
  let subject := "Zerodha Authentication Failed" in
  let message := "Error: " ++ error_message ++ nl
                 ++ "Please check your credentials and regenerate access token." in
  (deliveries nm subject message "ERROR"
   ++ [EvNotification "ERROR" subject message])%list.

(** ** More test doubles *)

Module Fixture.


(** A row whose quantity is text that is not a number. *)
Definition garbled : stock_entry :=
  StockEntry "ITC" (VStr "ten") "MARKET" (VFloat S754_nan) (VBool true).

(** The watchlist file cannot be read. *)
Definition no_file : result dataframe :=
  Raise (Exn "FileNotFoundError" "No such file or directory: 'stocks.csv'").

(** Both channels on. *)
Definition loud : notification_manager := NotificationManager true true.

(** A file system: paths with their contents, the latest write first. *)
Definition files : Type := list (string * string).

Fixpoint file_lookup (path : string) (fs : files) : option string :=
  match fs with
  | [] => None
  | (p, t) :: rest => if String.eqb path p then Some t else file_lookup path rest
  end.

Definition no_such_file : exn := Exn "FileNotFoundError" "No such file or directory".

(** A machine with that file system, a server that gives the two answers,
    and an [.env] file that holds nothing the environment lacks. *)
Definition machine (profile session : result value) : system files := {|
  sys_new_client := fun _ w => w;
  sys_set_access_token := fun _ w => w;
  sys_profile := fun w => (profile, w);
  sys_generate_session := fun _ _ w => (session, w);
  sys_read_text := fun path w =>
    match file_lookup path w with
    | Some t => (Ok (universal_newlines t), w)
    | None => (Raise no_such_file, w)
    end;
  sys_write_text := fun path text w => (Ok tt, (path, text) :: w);
  sys_path_exists := fun path w =>
    match file_lookup path w with Some _ => true | None => false end;
  sys_load_dotenv := fun _ _ vars => vars;
  sys_telegram_bot := fun _ w => (Ok tt, w);
  sys_makedirs := fun _ w => (Ok tt, w);
  sys_open_log := fun _ w => (Ok tt, w);
  sys_today := fun _ => "2024-01-01"
|}.

Definition token_rejected : result value :=
  Raise (Exn "TokenException" "Incorrect `api_key` or `access_token`.").

Definition new_session : result value :=
  Ok (VDict [("user_id", VStr "AB1234"); ("access_token", VStr "fresh")]).

Definition credentials : environment_variables :=
  [("API_KEY", "key"); ("API_SECRET", "secret"); ("ACCESS_TOKEN", "stale")].

Definition with_request_token : environment_variables :=
  ("REQUEST_TOKEN", "once") :: credentials.

(** E-mail switched on, with a sender and a password but no recipient. *)
Definition with_email : environment_variables :=
  [("ENABLE_EMAIL_NOTIFICATIONS", "True"); ("EMAIL_SENDER", "bot@example.org");
   ("EMAIL_PASSWORD", "secret")].

Definition env_file : files :=
  [("config/.env", "API_KEY=key" ++ nl ++ "ACCESS_TOKEN=stale" ++ nl)].

Definition manager : auth_manager := AuthManager "config/.env" "key" "secret".

(** Lines of an [.env] file. *)
Definition key_line : string := "API_KEY=key" ++ nl.
Definition stale_line : string := "ACCESS_TOKEN=stale" ++ nl.
Definition spare_line : string := "ACCESS_TOKEN=spare" ++ nl.

(** The process before anything was asked of the outside. *)
Definition boot (fs : files) (vars : environment_variables) (token : option string)
  : state (process files) :=
  State (Process fs vars token []) [].

End Fixture.

(** * Properties *)

(** ** The margin estimator and the margin guard *)

Section MarginFacts.
Context {World : Type}.
Variable env : environment World.
Variable rt : runtime.


Lemma fge_inf_inf : fge inf inf = true.
Proof. reflexivity. Qed.

Lemma fge_zero_nonneg (c : float) : fnonneg c = true -> fge c zero = true.
Proof.
  unfold fge, zero, SFleb.
  destruct c as [s | s | | s m e]; simpl; try discriminate;
    destruct s; simpl; try discriminate; reflexivity.
Qed.

Lemma to_float_zero : to_float rt (VInt 0) = Ok zero.
Proof. reflexivity. Qed.

(** The guard on an account lookup that answered. *)
Lemma guard_answered (m : float) (st : state World) margins w c :
  kite_margins env (world st) = (Ok margins, w) ->
  available_cash rt margins = Ok c ->
  _has_sufficient_margin env rt m st
  = (Ok (fge c m), State w (trace st ++ [EvMargins])).
Proof.
  intros Hk Hc.
  unfold _has_sufficient_margin, try_except, bind, call, lift, ret.
  rewrite Hk; simpl. rewrite Hc. reflexivity.
Qed.

(** The guard on an account lookup that raised, or whose answer has no
    readable cash: the [except] branch. *)
Lemma guard_unanswered (m : float) (st : state World) r w e :
  kite_margins env (world st) = (r, w) ->
  rbind r (available_cash rt) = Raise e ->
  _has_sufficient_margin env rt m st
  = (Ok true, State w (trace st ++ [EvMargins])).
Proof.
  intros Hk Hc.
  unfold _has_sufficient_margin, try_except, bind, call, lift, ret.
  rewrite Hk; simpl.
  destruct r as [margins | e']; simpl in *; [rewrite Hc |]; reflexivity.
Qed.

(** The guard always answers, and only looks the account up. *)
Lemma guard_total (m : float) (st : state World) :
  exists b, _has_sufficient_margin env rt m st
            = (Ok b, State (snd (kite_margins env (world st)))
                           (trace st ++ [EvMargins])).
Proof.
  destruct (kite_margins env (world st)) as [r w] eqn:Hk.
  destruct (rbind r (available_cash rt)) as [c | e] eqn:Hc.
  - destruct r as [margins | e']; simpl in Hc; [| discriminate].
    exists (fge c m). simpl. now apply (guard_answered m st margins w c).
  - exists true. simpl. now apply (guard_unanswered m st r w e).
Qed.

(** The estimator when the broker's figure is usable. *)
Lemma estimate_primary (params : order_params) (st : state World) margins w t :
  kite_order_margins env params (world st) = (Ok margins, w) ->
  reported_total rt margins = Ok t ->
  _check_margin_required env rt params st
  = (Ok t, State w (trace st ++ [EvOrderMargins params])).
Proof.
  intros Hk Ht.
  unfold _check_margin_required, try_except, bind, call, lift, ret.
  rewrite Hk; simpl. rewrite Ht. reflexivity.
Qed.

(** The estimator when the broker's figure is not usable: the answer of
    the fallback decides. *)
Lemma estimate_fallback (params : order_params) (st : state World) r w e r2 w2 :
  kite_order_margins env params (world st) = (r, w) ->
  rbind r (reported_total rt) = Raise e ->
  kite_ltp env (ltp_key params) w = (r2, w2) ->
  _check_margin_required env rt params st
  = (Ok match rbind r2 (fun ltp =>
               rbind (quoted_price rt ltp (ltp_key params)) (fun p =>
               fmul_int p (op_quantity params))) with
        | Ok v => v
        | Raise _ => inf
        end,
     State w2 (trace st ++ [EvOrderMargins params; EvLtp (ltp_key params)])).
Proof.
  intros Hk Hr Hl.
  unfold _check_margin_required, try_except, bind, call, lift, ret.
  rewrite Hk; simpl.
  assert (Hgo : forall X : result float * state World,
             match r with
             | Ok a => (reported_total rt a, State w (trace st ++ [EvOrderMargins params]))
             | Raise e0 => (Raise e0, State w (trace st ++ [EvOrderMargins params]))
             end = X ->
             exists e1, X = (Raise e1, State w (trace st ++ [EvOrderMargins params]))).
  { intros X <-. destruct r as [a | e0]; simpl in Hr.
    - rewrite Hr. now exists e.
    - now exists e0. }
  destruct (Hgo _ eq_refl) as [e1 ->]; simpl.
  rewrite Hl; simpl. rewrite <- app_assoc; simpl.
  destruct r2 as [ltp | e2]; simpl; [| reflexivity].
  destruct (rbind (quoted_price rt ltp (ltp_key params))
              (fun p => fmul_int p (op_quantity params))); reflexivity.
Qed.

(** The estimator always answers. *)
Lemma estimate_total (params : order_params) (st : state World) :
  exists v evs,
    _check_margin_required env rt params st
    = (Ok v, State (world (snd (_check_margin_required env rt params st)))
                   (trace st ++ EvOrderMargins params :: evs))
    /\ (evs = [] \/ evs = [EvLtp (ltp_key params)]).
Proof.
  destruct (kite_order_margins env params (world st)) as [r w] eqn:Hk.
  destruct (rbind r (reported_total rt)) as [t | e] eqn:Hr.
  - destruct r as [margins | e']; simpl in Hr; [| discriminate].
    exists t, []. rewrite (estimate_primary params st margins w t Hk Hr).
    simpl. auto.
  - destruct (kite_ltp env (ltp_key params) w) as [r2 w2] eqn:Hl.
    rewrite (estimate_fallback params st r w e r2 w2 Hk Hr Hl). simpl.
    eexists _, [EvLtp (ltp_key params)]. split; [reflexivity | auto].
Qed.

(** C4. Whenever the account-margin lookup raises, the margin guard
    returns true, whatever the required margin is: it fails open. *)
Theorem guard_fails_open (margin_required : float) (st : state World) e w :
  kite_margins env (world st) = (Raise e, w) ->
  _has_sufficient_margin env rt margin_required st
  = (Ok true, State w (trace st ++ [EvMargins])).
Proof.
  intros Hk. now apply (guard_unanswered margin_required st (Raise e) w e).
Qed.


(** C10. When the order-margin call answers with a first element that
    has no [total] key, the estimate is 0.0 and the price lookup is not
    made; and the guard lets a 0.0 estimate through whenever the available
    cash is non-negative. *)
Theorem missing_total_is_zero_margin (params : order_params) (st : state World) :
  (forall margins w d,
      kite_order_margins env params (world st) = (Ok margins, w) ->
      getitem0 margins = Ok (VDict d) ->
      dict_lookup "total" d = None ->
      _check_margin_required env rt params st
      = (Ok zero, State w (trace st ++ [EvOrderMargins params])))
  /\ (forall st2 account w2 c,
        kite_margins env (world st2) = (Ok account, w2) ->
        available_cash rt account = Ok c ->
        fnonneg c = true ->
        _has_sufficient_margin env rt zero st2
        = (Ok true, State w2 (trace st2 ++ [EvMargins]))).
Proof.
  split.
  - intros margins w d Hk H0 Hd.
    apply (estimate_primary params st margins w zero Hk).
    unfold reported_total. rewrite H0. simpl. rewrite Hd. reflexivity.
  - intros st2 account w2 c Hk Hc Hnn.
    rewrite (guard_answered zero st2 account w2 c Hk Hc).
    now rewrite (fge_zero_nonneg c Hnn).
Qed.

End MarginFacts.

(** The statements above on concrete brokers. *)

Lemma guard_fails_open_witness :
  _has_sufficient_margin (Mock.down (Mock.watchlist [])) Mock.plain_runtime inf Mock.start
  = (Ok true, State tt [EvMargins]).
Proof.
  apply (guard_fails_open (Mock.down (Mock.watchlist [])) Mock.plain_runtime inf
           Mock.start (Exn "NetworkException" "broker unreachable") tt).
  reflexivity.
Defined.


Lemma missing_total_is_zero_margin_witness :
  _check_margin_required (Mock.no_total 0) Mock.plain_runtime
    (make_order_params "A" 4 "MARKET" None) Mock.start
  = (Ok zero, State tt [EvOrderMargins (make_order_params "A" 4 "MARKET" None)])
  /\ _has_sufficient_margin (Mock.no_total 0) Mock.plain_runtime zero Mock.start
     = (Ok true, State tt [EvMargins]).
Proof.
  destruct (missing_total_is_zero_margin (Mock.no_total 0) Mock.plain_runtime
              (make_order_params "A" 4 "MARKET" None) Mock.start) as (Hest & Hguard).
  split.
  - eapply Hest; reflexivity.
  - eapply Hguard; reflexivity.
Defined.

(** ** Symbol parsing *)

Section SymbolFacts.

Lemma split_without_colon (s : string) :
  str_contains colon s = false -> str_split colon s = [s].
Proof.
  induction s as [| c s IH]; simpl; [reflexivity |].
  intros H. apply orb_false_iff in H as [Hc Hs].
  rewrite Hc, (IH Hs). reflexivity.
Qed.

Lemma split_at_first_colon (e s : string) :
  str_contains colon e = false ->
  str_split colon (e ++ String colon s) = e :: str_split colon s.
Proof.
  induction e as [| c e IH]; simpl.
  - reflexivity.
  - intros H. apply orb_false_iff in H as [Hc He].
    rewrite Hc, (IH He). reflexivity.
Qed.

Lemma contains_inserted_colon (e s : string) :
  str_contains colon (e ++ String colon s) = true.
Proof.
  induction e as [| c e IH]; simpl.
  - reflexivity.
  - rewrite IH. apply orb_true_r.
Qed.

(** C6. The request derived from "NFO:RELIANCE" has exchange "NFO" and
    symbol "RELIANCE"; from every "EXCHANGE:SYMBOL" (no colon inside either
    part) it has that exchange and that symbol; from every "SYMBOL" without
    a colon it has the whole symbol and the exchange "NSE". *)
Theorem symbol_parsing (quantity : Z) (order_type : string) (limit_price : option float) :
  (exchange (make_order_params "NFO:RELIANCE" quantity order_type limit_price) = "NFO"
   /\ tradingsymbol (make_order_params "NFO:RELIANCE" quantity order_type limit_price)
      = "RELIANCE")
  /\ (exchange (make_order_params "RELIANCE" quantity order_type limit_price) = "NSE"
      /\ tradingsymbol (make_order_params "RELIANCE" quantity order_type limit_price)
         = "RELIANCE")
  /\ (forall e s,
        str_contains colon e = false ->
        str_contains colon s = false ->
        exchange (make_order_params (e ++ ":" ++ s) quantity order_type limit_price) = e
        /\ tradingsymbol (make_order_params (e ++ ":" ++ s) quantity order_type limit_price)
           = s)
  /\ (forall s,
        str_contains colon s = false ->
        exchange (make_order_params s quantity order_type limit_price) = "NSE"
        /\ tradingsymbol (make_order_params s quantity order_type limit_price) = s).
Proof.
  split; [split; reflexivity |].
  split; [split; reflexivity |].
  split.
  - intros e s He Hs. change (":" ++ s) with (String colon s).
    unfold make_order_params; cbn [exchange tradingsymbol].
    rewrite (contains_inserted_colon e s), (split_at_first_colon e s He),
      (split_without_colon s Hs).
    split; reflexivity.
  - intros s Hs. unfold make_order_params; cbn [exchange tradingsymbol].
    rewrite Hs, (split_without_colon s Hs). split; reflexivity.
Qed.

End SymbolFacts.

Lemma symbol_parsing_witness :
  (exchange (make_order_params ("BSE" ++ ":" ++ "INFY") 5 "LIMIT" None) = "BSE"
   /\ tradingsymbol (make_order_params ("BSE" ++ ":" ++ "INFY") 5 "LIMIT" None) = "INFY")
  /\ (exchange (make_order_params "TCS" 5 "LIMIT" None) = "NSE"
      /\ tradingsymbol (make_order_params "TCS" 5 "LIMIT" None) = "TCS").
Proof.
  destruct (symbol_parsing 5 "LIMIT" None) as (_ & _ & Hpair & Hplain).
  split.
  - apply Hpair; reflexivity.
  - apply Hplain; reflexivity.
Defined.

(** ** One attempt, and the retries around it *)

Section OrderFacts.
Context {World : Type}.
Variable env : environment World.
Variable rt : runtime.

Lemma attempts_in_app (tr evs : list event) :
  attempts_in (tr ++ evs) = (attempts_in tr + attempts_in evs)%nat.
Proof. unfold attempts_in. now rewrite filter_app, length_app. Qed.

Lemma placements_in_app (tr evs : list event) :
  placements_in (tr ++ evs) = (placements_in tr + placements_in evs)%nat.
Proof. unfold placements_in. now rewrite filter_app, length_app. Qed.

Lemma slept_in_app (tr evs : list event) :
  slept_in (tr ++ evs) = slept_in tr + slept_in evs.
Proof.
  induction tr as [| ev tr IH]; simpl; [reflexivity |].
  destruct ev; fold (slept_in (tr ++ evs)); fold (slept_in tr); lia.
Qed.

Lemma notifications_in_app (tr evs : list event) :
  notifications_in (tr ++ evs) = (notifications_in tr ++ notifications_in evs)%list.
Proof. unfold notifications_in. apply filter_app. Qed.



Lemma attempts_in_sleep (d : Z) : attempts_in [EvSleep d] = 0%nat.
Proof. reflexivity. Qed.


Lemma slept_in_sleep (d : Z) : slept_in [EvSleep d] = d.
Proof. unfold slept_in; simpl. lia. Qed.


Lemma float_same_eq (x y : float) : float_same x y = true -> x = y.
Proof.
  destruct x as [s | s | | s m e], y as [s' | s' | | s' m' e']; simpl;
    try discriminate; try reflexivity.
  - intros H. apply Bool.eqb_prop in H. now subst.
  - intros H. apply Bool.eqb_prop in H. now subst.
  - intros H. apply andb_true_iff in H as [H He]. apply andb_true_iff in H as [Hs Hm].
    apply Bool.eqb_prop in Hs. apply Pos.eqb_eq in Hm. apply Z.eqb_eq in He.
    now subst.
Qed.


(** [order_params_same] is equality of requests. *)
Lemma order_params_same_eq (p q : order_params) :
  order_params_same p q = true -> p = q.
Proof.
  unfold order_params_same. intros H.
  repeat (apply andb_true_iff in H as [H ?]).
  destruct p as [a1 a2 a3 a4 a5 a6 a7], q as [b1 b2 b3 b4 b5 b6 b7]; simpl in *.
  repeat match goal with
         | E : String.eqb _ _ = true |- _ => apply String.eqb_eq in E
         | E : Z.eqb _ _ = true |- _ => apply Z.eqb_eq in E
         end.
  subst.
  destruct a7 as [x |], b7 as [y |]; try discriminate; [| reflexivity].
  match goal with E : float_same _ _ = true |- _ => apply float_same_eq in E end.
  now subst.
Qed.





Lemma time_sleep_negative (d : Z) (st : state World) :
  d < 0 ->
  time_sleep env d st
  = (Raise (Exn "ValueError" "sleep length must be non-negative"), st).
Proof.
  intros Hd. unfold time_sleep.
  destruct (d <? 0) eqn:E; [reflexivity | apply Z.ltb_ge in E; lia].
Qed.

(** One attempt, once the estimator and the guard have answered. *)
Lemma submit_unfold symbol quantity order_type limit_price (st : state World)
    m st1 b st2 :
  let p := make_order_params symbol quantity order_type limit_price in
  _check_margin_required env rt p st = (Ok m, st1) ->
  _has_sufficient_margin env rt m st1 = (Ok b, st2) ->
  submit env rt symbol quantity order_type limit_price st
  = if b
    then (rbind (fst (kite_place_order env p (world st2))) (fun order_id =>
            Ok {| success := true; order_id := Some order_id; error := None;
                  symbol := symbol; timestamp := None |}),
          State (snd (kite_place_order env p (world st2)))
                (trace st2 ++ [EvPlaceOrder p]))
    else (Raise (Exn "ValueError" (insufficient_margin_msg rt symbol m)), st2).
Proof.
  intros p Hm Hb. unfold submit, bind, raise, call, ret.
  fold p. rewrite Hm, Hb.
  destruct b; simpl; [| reflexivity].
  destruct (kite_place_order env p (world st2)) as [[oid | e] w]; reflexivity.
Qed.


(** What a successful attempt returns. *)
Lemma submit_ok symbol quantity order_type limit_price (st : state World) r st' :
  submit env rt symbol quantity order_type limit_price st = (Ok r, st') ->
  exists order_id,
    r = {| success := true; order_id := Some order_id; error := None;
           symbol := symbol; timestamp := None |}.
Proof.
  set (p := make_order_params symbol quantity order_type limit_price).
  destruct (estimate_total env rt p st) as (m & evs & Hm & _).
  set (st1 := State (world (snd (_check_margin_required env rt p st)))
                    (trace st ++ EvOrderMargins p :: evs)) in *.
  destruct (guard_total env rt m st1) as (b & Hb).
  rewrite (submit_unfold symbol quantity order_type limit_price st m st1 b _ Hm Hb).
  destruct b; simpl; [| discriminate].
  match goal with
  | |- context [fst ?x] => destruct (fst x) as [oid | e]; simpl; [| discriminate]
  end.
  intros H. injection H as <- _. now exists oid.
Qed.

(** One level of [place_order] on an entry whose cells convert. *)
Lemma place_order_rec_step (e : stock_entry) (n : nat) (d : Z) (st : state World) q lp :
  to_int rt (quantity e) = Ok q ->
  limit_price_of rt e = Ok lp ->
  place_order_rec env rt e n d st
  = match submit env rt (trading_symbol e) q (order_type e) lp st with
    | (Ok r, st') => (Ok r, st')
    | (Raise ex, st') =>
        match n with
        | S n' =>
            match time_sleep env d st' with
            | (Ok _, st'') => place_order_rec env rt e n' d st''
            | (Raise ex', st'') => (Raise ex', st'')
            end
        | O => (Ok (failure (trading_symbol e) (exn_msg ex)), st')
        end
    end.
Proof.
  intros Hq Hlp.
  destruct n; simpl; unfold bind, lift, try_except; rewrite Hq, Hlp;
    destruct (submit env rt (trading_symbol e) q (order_type e) lp st) as [[r | ex] st'];
    reflexivity.
Qed.

(** An entry whose quantity does not convert: the exception leaves
    [place_order] before anything is done. *)
Lemma place_order_rec_bad_quantity (e : stock_entry) (n : nat) (d : Z)
    (st : state World) ex :
  to_int rt (quantity e) = Raise ex ->
  place_order_rec env rt e n d st = (Raise ex, st).
Proof.
  intros Hq. destruct n; simpl; unfold bind, lift; rewrite Hq; reflexivity.
Qed.









End OrderFacts.






(** A retry checks the margin afresh: an entry blocked at its first
    attempt is placed by the second one when the account has been funded in
    between.  Two attempts, one sleep, one placement. *)
Lemma retry_rechecks_margin :
  let out := place_order Mock.topped_up Mock.plain_runtime Mock.reliance 3 2
               (State 0%nat []) in
  fst out = Ok (OrderResult true (Some (VStr "240101000000001")) None "NFO:RELIANCE" None)
  /\ attempts_in (trace (snd out)) = 2%nat
  /\ slept_in (trace (snd out)) = 2
  /\ placements_in (trace (snd out)) = 1%nat.
Proof. repeat split; reflexivity. Qed.



(** ** The batch runner *)

Section BatchFacts.
Context {World : Type}.
Variable env : environment World.
Variable rt : runtime.
Variable nm : notification_manager.
Variable cfg : settings.

Lemma deliveries_are_quiet subject message t :
  notifications_in (deliveries nm subject message t) = []
  /\ attempts_in (deliveries nm subject message t) = 0%nat
  /\ placements_in (deliveries nm subject message t) = 0%nat
  /\ slept_in (deliveries nm subject message t) = 0.
Proof.
  unfold deliveries.
  destruct (enable_email nm), (enable_telegram nm); repeat split; reflexivity.
Qed.

(** [send_notification] never raises and leaves one notification. *)
Lemma send_notification_run subject message t (st : state World) :
  send_notification nm subject message t st
  = (Ok tt, State (world st)
              (trace st ++ deliveries nm subject message t
               ++ [EvNotification t subject message])).
Proof.
  unfold send_notification, deliveries, bind, emit, ret.
  destruct (enable_email nm), (enable_telegram nm); simpl;
    rewrite <- ?app_assoc; reflexivity.
Qed.

Lemma notifications_after_send (tr : list event) subject message t :
  notifications_in (tr ++ deliveries nm subject message t
                    ++ [EvNotification t subject message])
  = (notifications_in tr ++ [EvNotification t subject message])%list.
Proof.
  rewrite !notifications_in_app.
  destruct (deliveries_are_quiet subject message t) as (-> & _).
  reflexivity.
Qed.

Lemma notification_counts t subject message :
  attempts_in [EvNotification t subject message] = 0%nat
  /\ placements_in [EvNotification t subject message] = 0%nat
  /\ slept_in [EvNotification t subject message] = 0.
Proof. repeat split; reflexivity. Qed.

Lemma well_formed_with_timestamp (r : order_result) (t : string) :
  well_formed (with_timestamp r t) = well_formed r.
Proof. reflexivity. Qed.




Lemma missing_column_found (df : dataframe) (col : string) :
  In col required_columns ->
  ~ In col (columns df) ->
  missing_columns_of df <> [].
Proof.
  intros Hreq Habs Hnil.
  assert (Hin : In col (missing_columns_of df)).
  { unfold missing_columns_of. apply filter_In. split; [exact Hreq |].
    apply negb_true_iff. destruct (existsb (String.eqb col) (columns df)) eqn:E; [| reflexivity].
    apply existsb_exists in E as (c & Hc & Heq).
    apply String.eqb_eq in Heq. subst c. contradiction. }
  rewrite Hnil in Hin. contradiction.
Qed.

(** C8. On a day the batch runs, when the watchlist file lacks a
    required column, the batch stops before any submission: exactly one
    notification is sent, of type ERROR, no order is attempted or placed for
    any entry, and nothing is slept or retried. *)
Theorem missing_column_aborts_batch (st : state World) (df : dataframe) (col : string) :
  now_weekday env (world st) < 5 ->
  read_csv env (world st) = Ok df ->
  In col required_columns ->
  ~ In col (columns df) ->
  let out := place_scheduled_orders env rt nm cfg st in
  out = (Ok [],
         State (world st)
           (trace st
            ++ deliveries nm "Stock Configuration Error" (config_error_message df) "ERROR"
            ++ [EvNotification "ERROR" "Stock Configuration Error"
                  (config_error_message df)]))
  /\ notifications_in (trace (snd out))
     = (notifications_in (trace st)
        ++ [EvNotification "ERROR" "Stock Configuration Error" (config_error_message df)])%list
  /\ attempts_in (trace (snd out)) = attempts_in (trace st)
  /\ placements_in (trace (snd out)) = placements_in (trace st)
  /\ slept_in (trace (snd out)) = slept_in (trace st).
Proof.
  intros Hday Hcsv Hreq Habs out.
  pose proof (missing_column_found df col Hreq Habs) as Hmiss.
  assert (Hout : out = (Ok [],
         State (world st)
           (trace st
            ++ deliveries nm "Stock Configuration Error" (config_error_message df) "ERROR"
            ++ [EvNotification "ERROR" "Stock Configuration Error"
                  (config_error_message df)]))).
  { subst out. unfold place_scheduled_orders.
    replace (now_weekday env (world st) <? 5) with true
      by (symmetry; apply Z.ltb_lt; exact Hday).
    cbn [negb]. unfold load_stock_config. rewrite Hcsv. cbn [rbind].
    destruct (missing_columns_of df) as [| c rest] eqn:E; [now elim Hmiss |].
    unfold bind. rewrite send_notification_run.
    unfold config_error_message. rewrite E. reflexivity. }
  split; [exact Hout |]. rewrite Hout. cbn [snd trace].
  destruct (deliveries_are_quiet "Stock Configuration Error"
              (config_error_message df) "ERROR") as (Hn & Ha & Hp & Hs).
  destruct (notification_counts "ERROR" "Stock Configuration Error"
              (config_error_message df)) as (Ha' & Hp' & Hs').
  repeat split.
  - apply notifications_after_send.
  - rewrite !attempts_in_app, Ha, Ha'. lia.
  - rewrite !placements_in_app, Hp, Hp'. lia.
  - rewrite !slept_in_app, Hs, Hs'. lia.
Qed.


End BatchFacts.

Lemma missing_column_aborts_batch_witness :
  let env := Mock.healthy 500 (Ok (DataFrame ["trading_symbol"; "quantity"] [Mock.reliance])) in
  let out := place_scheduled_orders env Mock.plain_runtime Mock.quiet Mock.defaults
               Mock.start in
  notifications_in (trace (snd out))
  = [EvNotification "ERROR" "Stock Configuration Error"
       "Failed to load stock configuration: Stock config is missing required columns: ['order_type', 'limit_price', 'is_active']"]
  /\ attempts_in (trace (snd out)) = 0%nat
  /\ placements_in (trace (snd out)) = 0%nat
  /\ slept_in (trace (snd out)) = 0.
Proof.
  intros env out.
  destruct (missing_column_aborts_batch env Mock.plain_runtime Mock.quiet Mock.defaults
              Mock.start
              (DataFrame ["trading_symbol"; "quantity"] [Mock.reliance]) "is_active")
    as (_ & Hn & Ha & Hp & Hs).
  - reflexivity.
  - reflexivity.
  - simpl. tauto.
  - simpl. intros [H | [H | []]]; discriminate H.
  - repeat split; assumption.
Defined.



(** * Further properties *)

(** ** Loading the watchlist *)

Section LoaderFacts.
Context {World : Type}.
Variable env : environment World.
Variable rt : runtime.
Variable nm : notification_manager.
Variable cfg : settings.





(** X2. On a day the batch runs, whatever makes the loading of the
    watchlist raise (an unreadable file, a missing column, an [is_active]
    column that is no boolean mask), the batch does not raise: it sends one
    ERROR notification that carries the message of the exception and
    returns, without a broker call and without a sleep. *)
Theorem load_failure_is_reported_once (st : state World) (e : exn) :
  now_weekday env (world st) < 5 ->
  load_stock_config env (world st) = Raise e ->
  let note := EvNotification "ERROR" "Stock Configuration Error"
                ("Failed to load stock configuration: " ++ exn_msg e) in
  place_scheduled_orders env rt nm cfg st
  = (Ok [], State (world st) (trace st ++ deliveries_of nm note ++ [note]))
  /\ notifications_in (trace st ++ deliveries_of nm note ++ [note])
     = (notifications_in (trace st) ++ [note])%list
  /\ attempts_in (trace st ++ deliveries_of nm note ++ [note]) = attempts_in (trace st)
  /\ placements_in (trace st ++ deliveries_of nm note ++ [note])
     = placements_in (trace st)
  /\ slept_in (trace st ++ deliveries_of nm note ++ [note]) = slept_in (trace st).
Proof.
  intros Hday Hload note.
  destruct (deliveries_are_quiet nm "Stock Configuration Error"
              ("Failed to load stock configuration: " ++ exn_msg e) "ERROR")
    as (Hn & Ha & Hp & Hs).
  destruct (notification_counts "ERROR" "Stock Configuration Error"
              ("Failed to load stock configuration: " ++ exn_msg e))
    as (Ha' & Hp' & Hs').
  subst note. cbn [deliveries_of]. repeat split.
  - unfold place_scheduled_orders.
    replace (now_weekday env (world st) <? 5) with true
      by (symmetry; apply Z.ltb_lt; exact Hday).
    cbn [negb]. rewrite Hload. unfold bind.
    now rewrite send_notification_run.
  - apply notifications_after_send.
  - rewrite !attempts_in_app, Ha, Ha'. lia.
  - rewrite !placements_in_app, Hp, Hp'. lia.
  - rewrite !slept_in_app, Hs, Hs'. lia.
Qed.


End LoaderFacts.


Lemma load_failure_is_reported_once_witness :
  place_scheduled_orders (Mock.healthy 500 Fixture.no_file) Mock.plain_runtime
    Fixture.loud Mock.defaults Mock.start
  = (Ok [],
     State tt
       [EvEmail "Stock Configuration Error"
          ("[ERROR] Stock Configuration Error" ++ nl ++ nl
           ++ "Failed to load stock configuration: No such file or directory: 'stocks.csv'");
        EvTelegram
          ("[ERROR] Stock Configuration Error" ++ nl ++ nl
           ++ "Failed to load stock configuration: No such file or directory: 'stocks.csv'");
        EvNotification "ERROR" "Stock Configuration Error"
          "Failed to load stock configuration: No such file or directory: 'stocks.csv'"]).
Proof.
  apply (load_failure_is_reported_once (Mock.healthy 500 Fixture.no_file)
           Mock.plain_runtime Fixture.loud Mock.defaults Mock.start
           (Exn "FileNotFoundError" "No such file or directory: 'stocks.csv'")).
  - reflexivity.
  - reflexivity.
Defined.


(** ** The guard and the estimator at their edges *)

Section EdgeFacts.
Context {World : Type}.
Variable env : environment World.
Variable rt : runtime.

Lemma fge_nan_left (m : float) : fge S754_nan m = false.
Proof. unfold fge, SFleb. now destruct m as [s | s | | s mm e]. Qed.

Lemma fge_nan_right (c : float) : fge c S754_nan = false.
Proof. reflexivity. Qed.

Lemma fge_same (x : float) : is_nan x = false -> fge x x = true.
Proof.
  unfold fge, SFleb.
  destruct x as [s | [ | ] | | [ | ] m e]; simpl; try reflexivity; try discriminate;
    intros _; rewrite Z.compare_refl;
    change (Pos.compare_cont Eq m m) with (Pos.compare m m);
    rewrite Pos.compare_refl; reflexivity.
Qed.



(** X4. NaN never passes the guard: when the account lookup answers
    with a readable cash figure and either that figure or the required
    margin is NaN, the guard returns false. *)
Theorem nan_is_blocked (m : float) (st : state World) margins w c :
  kite_margins env (world st) = (Ok margins, w) ->
  available_cash rt margins = Ok c ->
  is_nan m = true \/ is_nan c = true ->
  _has_sufficient_margin env rt m st
  = (Ok false, State w (trace st ++ [EvMargins])).
Proof.
  intros Hk Hc Hnan. rewrite (guard_answered env rt m st margins w c Hk Hc).
  destruct Hnan as [H | H].
  - destruct m; try discriminate. now rewrite fge_nan_right.
  - destruct c; try discriminate. now rewrite fge_nan_left.
Qed.

(** X5. The comparison of the guard is [>=]: an available cash that is
    exactly the required margin lets the order through. *)
Theorem exact_cash_is_enough (m : float) (st : state World) margins w :
  kite_margins env (world st) = (Ok margins, w) ->
  available_cash rt margins = Ok m ->
  is_nan m = false ->
  _has_sufficient_margin env rt m st
  = (Ok true, State w (trace st ++ [EvMargins])).
Proof.
  intros Hk Hc Hnum. rewrite (guard_answered env rt m st margins w m Hk Hc).
  now rewrite (fge_same m Hnum).
Qed.


(** X7. A quantity too large for a float defeats the price fallback:
    when the order-margin call fails and the price lookup gives a readable
    price, but [float(quantity)] overflows, the product raises inside the
    inner [try] and the estimate is [float('inf')]. *)
Theorem oversized_quantity_is_unbounded (params : order_params) (st : state World)
    r w e ltp w2 P ex :
  kite_order_margins env params (world st) = (r, w) ->
  rbind r (reported_total rt) = Raise e ->
  kite_ltp env (ltp_key params) w = (Ok ltp, w2) ->
  quoted_price rt ltp (ltp_key params) = Ok P ->
  float_of_int (op_quantity params) = Raise ex ->
  _check_margin_required env rt params st
  = (Ok inf, State w2 (trace st ++ [EvOrderMargins params; EvLtp (ltp_key params)])).
Proof.
  intros Hk Hr Hl HP Hq.
  rewrite (estimate_fallback env rt params st r w e (Ok ltp) w2 Hk Hr Hl).
  simpl. rewrite HP. simpl. unfold fmul_int. rewrite Hq. reflexivity.
Qed.

End EdgeFacts.

Lemma nan_is_blocked_witness :
  _has_sufficient_margin (Mock.account_only (VFloat S754_nan)) Mock.plain_runtime
    zero Mock.start
  = (Ok false, State tt [EvMargins]).
Proof.
  apply (nan_is_blocked (Mock.account_only (VFloat S754_nan)) Mock.plain_runtime
           zero Mock.start (Mock.account (VFloat S754_nan)) tt S754_nan).
  - reflexivity.
  - reflexivity.
  - right. reflexivity.
Defined.

Lemma exact_cash_is_enough_witness :
  _has_sufficient_margin
    (Mock.account_only (VFloat (S754_finite false 4503599627370496 (-45))))
    Mock.plain_runtime (S754_finite false 4503599627370496 (-45)) Mock.start
  = (Ok true, State tt [EvMargins]).
Proof.
  apply (exact_cash_is_enough
           (Mock.account_only (VFloat (S754_finite false 4503599627370496 (-45))))
           Mock.plain_runtime (S754_finite false 4503599627370496 (-45)) Mock.start
           (Mock.account (VFloat (S754_finite false 4503599627370496 (-45)))) tt).
  - reflexivity.
  - reflexivity.
  - reflexivity.
Defined.


Lemma oversized_quantity_is_unbounded_witness :
  _check_margin_required (Mock.price_only (VInt 3) "NSE:A") Mock.plain_runtime
    (make_order_params "A" (2 ^ 1024) "MARKET" None) Mock.start
  = (Ok inf,
     State tt [EvOrderMargins (make_order_params "A" (2 ^ 1024) "MARKET" None);
               EvLtp "NSE:A"]).
Proof.
  eapply (oversized_quantity_is_unbounded (Mock.price_only (VInt 3) "NSE:A")
            Mock.plain_runtime (make_order_params "A" (2 ^ 1024) "MARKET" None)
            Mock.start).
  - reflexivity.
  - reflexivity.
  - reflexivity.
  - reflexivity.
  - vm_compute. reflexivity.
Defined.

(** ** The request derived from an entry *)

Section RequestFacts.
Variable rt : runtime.

Lemma append_assoc (a b c : string) : (a ++ b) ++ c = a ++ (b ++ c).
Proof. induction a as [| x a IH]; simpl; [reflexivity | now rewrite IH]. Qed.

Lemma split_is_never_empty (sep : ascii) (s : string) : str_split sep s <> [].
Proof.
  induction s as [| c s IH]; simpl; [discriminate |].
  destruct (Ascii.eqb c sep); [discriminate |].
  destruct (str_split sep s); [now elim IH | discriminate].
Qed.

(** A text with a colon splits in two pieces at least. *)
Lemma split_at_a_colon (x c : string) :
  exists h h' t, str_split colon (x ++ String colon c) = h :: h' :: t.
Proof.
  induction x as [| a x IH]; simpl.
  - pose proof (split_is_never_empty colon c) as Hne.
    destruct (str_split colon c) as [| h' t]; [now elim Hne |].
    now exists EmptyString, h', t.
  - destruct IH as (h & h' & t & ->).
    destruct (Ascii.eqb a colon); eauto.
Qed.

(** The last piece of a split is what follows the last separator. *)
Lemma last_of_split (x c : string) :
  str_contains colon c = false ->
  last (str_split colon (x ++ String colon c)) EmptyString = c.
Proof.
  intros Hc. induction x as [| a x IH]; simpl.
  - rewrite (split_without_colon c Hc). reflexivity.
  - destruct (split_at_a_colon x c) as (h & h' & t & Hs).
    rewrite Hs in IH |- *.
    destruct (Ascii.eqb a colon); exact IH.
Qed.

(** X8. Whatever the trading symbol holds, the exchange of the request
    is the text before its first colon and the symbol of the request is the
    text after its last colon.  So "A:B:C" is sent as exchange "A" and
    symbol "C", the price fallback looks "A:C" up, and what stands between
    the colons is dropped. *)
Theorem request_keeps_the_outer_parts (a b c : string) (quantity : Z)
    (order_type : string) (limit_price : option float) :
  str_contains colon a = false ->
  str_contains colon c = false ->
  let p := make_order_params (a ++ ":" ++ b ++ ":" ++ c) quantity order_type limit_price in
  exchange p = a /\ tradingsymbol p = c /\ ltp_key p = a ++ ":" ++ c.
Proof.
  intros Ha Hc p.
  assert (He : exchange p = a).
  { subst p. unfold make_order_params; cbn [exchange].
    change (":" ++ b ++ ":" ++ c) with (String colon (b ++ ":" ++ c)).
    rewrite (contains_inserted_colon a), (split_at_first_colon a _ Ha). reflexivity. }
  assert (Ht : tradingsymbol p = c).
  { subst p. unfold make_order_params; cbn [tradingsymbol].
    replace (a ++ ":" ++ b ++ ":" ++ c) with ((a ++ ":" ++ b) ++ String colon c).
    - apply (last_of_split _ c Hc).
    - rewrite append_assoc. reflexivity. }
  repeat split; try assumption.
  unfold ltp_key. now rewrite He, Ht.
Qed.

(** X9. The request of an entry carries a price exactly when the order
    type is "LIMIT" and the limit price is a float other than zero; the
    price is then that float.  A LIMIT row with a limit price of 0 is sent
    without a price, a row of another type never has one, and an empty
    limit cell of a LIMIT row is sent as the price NaN. *)
Theorem price_only_for_limit_orders (e : stock_entry) (p : order_params) (x : float) :
  entry_params rt e = Some p ->
  price p = Some x
  <-> order_type e = "LIMIT"
      /\ to_float rt (limit_price e) = Ok x
      /\ ftruthy x = true.
Proof.
  unfold entry_params, limit_price_of.
  destruct (to_int rt (quantity e)) as [q |]; [| discriminate].
  destruct (String.eqb (order_type e) "LIMIT") eqn:Hot.
  - apply String.eqb_eq in Hot.
    destruct (to_float rt (limit_price e)) as [y |]; simpl; [| discriminate].
    intros H. injection H as <-. cbn [price make_order_params].
    rewrite Hot. cbn [String.eqb Ascii.eqb Bool.eqb andb].
    destruct (ftruthy y) eqn:Hy; split.
    + intros H. injection H as ->. auto.
    + intros (_ & H & _). now injection H as ->.
    + discriminate.
    + intros (_ & H & Hx). injection H as ->. congruence.
  - intros H. injection H as <-. cbn [price make_order_params].
    split; [discriminate |].
    intros (H & _). rewrite H in Hot. discriminate.
Qed.

End RequestFacts.

Lemma request_keeps_the_outer_parts_witness :
  exchange (make_order_params ("NFO" ++ ":" ++ "NIFTY:24JAN" ++ ":" ++ "FUT") 1 "MARKET" None)
  = "NFO"
  /\ tradingsymbol
       (make_order_params ("NFO" ++ ":" ++ "NIFTY:24JAN" ++ ":" ++ "FUT") 1 "MARKET" None)
     = "FUT"
  /\ ltp_key
       (make_order_params ("NFO" ++ ":" ++ "NIFTY:24JAN" ++ ":" ++ "FUT") 1 "MARKET" None)
     = "NFO" ++ ":" ++ "FUT".
Proof.
  apply (request_keeps_the_outer_parts "NFO" "NIFTY:24JAN" "FUT" 1 "MARKET" None).
  - reflexivity.
  - reflexivity.
Defined.

Lemma price_only_for_limit_orders_witness :
  price (make_order_params "INFY" 5 "LIMIT" (Some (S754_finite false 6597069766656000 (-42))))
  = Some (S754_finite false 6597069766656000 (-42)).
Proof.
  apply (price_only_for_limit_orders Mock.plain_runtime Mock.infy
           (make_order_params "INFY" 5 "LIMIT"
              (Some (S754_finite false 6597069766656000 (-42))))
           (S754_finite false 6597069766656000 (-42))).
  - reflexivity.
  - repeat split; reflexivity.
Defined.

(** ** The retries, whatever the broker does *)

Section RetryFacts.
Context {World : Type}.
Variable env : environment World.
Variable rt : runtime.

Lemma placements_in_request p (evs : list event) :
  placements_in (EvOrderMargins p :: evs) = placements_in evs.
Proof. reflexivity. Qed.

(** One attempt makes one [order_margins] request, at most one placement
    and no sleep. *)
Lemma submit_counts symbol quantity order_type limit_price (st : state World) :
  exists evs,
    trace (snd (submit env rt symbol quantity order_type limit_price st))
    = (trace st ++ evs)%list
    /\ attempts_in evs = 1%nat
    /\ (placements_in evs <= 1)%nat
    /\ slept_in evs = 0.
Proof.
  set (p := make_order_params symbol quantity order_type limit_price).
  destruct (estimate_total env rt p st) as (m & evs & Hm & Hevs).
  set (st1 := State (world (snd (_check_margin_required env rt p st)))
                    (trace st ++ EvOrderMargins p :: evs)) in *.
  destruct (guard_total env rt m st1) as (b & Hb).
  rewrite (submit_unfold env rt symbol quantity order_type limit_price st m st1 b _ Hm Hb).
  subst st1.
  destruct b; cbn [snd trace]; rewrite <- !app_assoc; eexists; (split; [reflexivity |]);
    destruct Hevs as [-> | ->]; repeat split; cbn; lia.
Qed.

Lemma time_sleep_inv (d : Z) (st st2 : state World) (u : unit) :
  time_sleep env d st = (Ok u, st2) ->
  0 <= d /\ st2 = State (elapse env d (world st)) (trace st ++ [EvSleep d]).
Proof.
  unfold time_sleep. destruct (d <? 0) eqn:E; [discriminate |].
  intros H. injection H as _ <-. apply Z.ltb_ge in E. auto.
Qed.

Lemma place_order_rec_bad_price (e : stock_entry) (n : nat) (d : Z)
    (st : state World) q ex :
  to_int rt (quantity e) = Ok q ->
  limit_price_of rt e = Raise ex ->
  place_order_rec env rt e n d st = (Raise ex, st).
Proof.
  intros Hq Hlp. destruct n; simpl; unfold bind, lift; rewrite Hq, Hlp; reflexivity.
Qed.



(** The retries stop at the first attempt that succeeds. *)
Lemma stops_at_first_success (e : stock_entry) (d : Z) q lp r :
  to_int rt (quantity e) = Ok q ->
  limit_price_of rt e = Ok lp ->
  forall (k n : nat) (st stk st' : state World),
    after_failures env rt (trading_symbol e) q (order_type e) lp d k st = Some stk ->
    (k <= n)%nat ->
    submit env rt (trading_symbol e) q (order_type e) lp stk = (Ok r, st') ->
    place_order_rec env rt e n d st = (Ok r, st')
    /\ attempts_in (trace st') = (attempts_in (trace st) + k + 1)%nat
    /\ slept_in (trace st') = slept_in (trace st) + Z.of_nat k * d.
Proof.
  intros Hq Hlp.
  induction k as [| k IH]; intros n st stk st' Hchain Hk Hs;
    rewrite (place_order_rec_step env rt e _ d st q lp Hq Hlp).
  - cbn in Hchain. injection Hchain as <-.
    destruct (submit_counts (trading_symbol e) q (order_type e) lp st)
      as (evs & Htr & Ha & _ & Hsl).
    rewrite Hs in Htr |- *. cbn [snd] in Htr.
    repeat split.
    + rewrite Htr, attempts_in_app, Ha. lia.
    + rewrite Htr, slept_in_app, Hsl. lia.
  - cbn [after_failures] in Hchain.
    destruct (submit_counts (trading_symbol e) q (order_type e) lp st)
      as (evs & Htr & Ha & _ & Hsl).
    destruct (submit env rt (trading_symbol e) q (order_type e) lp st)
      as [[r0 | ex] st1]; [discriminate |].
    cbn [snd] in Htr.
    destruct (time_sleep env d st1) as [[u | ex'] st2] eqn:Hsleep; [| discriminate].
    apply time_sleep_inv in Hsleep as [Hd ->].
    destruct n as [| n]; [lia |].
    destruct (IH n _ stk st' Hchain (le_S_n _ _ Hk) Hs) as (Hrun & Hatt & Hslept).
    repeat split.
    + exact Hrun.
    + rewrite Hatt. cbn [trace].
      rewrite Htr, !attempts_in_app, Ha, attempts_in_sleep. lia.
    + rewrite Hslept. cbn [trace].
      rewrite Htr, !slept_in_app, Hsl, slept_in_sleep, Nat2Z.inj_succ. lia.
Qed.

(** X11. The retries stop at the first success.  When the first [k]
    attempts raise (each followed by its sleep), [k] is within
    [retry_attempts] and attempt [k + 1] succeeds, [place_order] returns
    the success dict of that attempt from the state that attempt left:
    exactly [k + 1] attempts and [k] sleeps, and nothing after the
    placement. *)
Theorem first_success_ends_the_retries (e : stock_entry) (N D : Z) q lp (k : nat)
    (st stk st' : state World) (r : order_result) :
  to_int rt (quantity e) = Ok q ->
  limit_price_of rt e = Ok lp ->
  after_failures env rt (trading_symbol e) q (order_type e) lp D k st = Some stk ->
  Z.of_nat k <= N ->
  submit env rt (trading_symbol e) q (order_type e) lp stk = (Ok r, st') ->
  place_order env rt e N D st = (Ok r, st')
  /\ success r = true
  /\ attempts_in (trace st') = (attempts_in (trace st) + k + 1)%nat
  /\ slept_in (trace st') = slept_in (trace st) + Z.of_nat k * D.
Proof.
  intros Hq Hlp Hchain Hk Hs. unfold place_order.
  destruct (stops_at_first_success e D q lp r Hq Hlp k (Z.to_nat N) st stk st' Hchain
              ltac:(lia) Hs) as (Hrun & Hatt & Hslept).
  destruct (submit_ok env rt _ _ _ _ _ _ _ Hs) as (oid & ->).
  repeat split; assumption.
Qed.

(** X12. An entry whose quantity does not convert to an integer (or
    whose limit price does not convert to a number when the order is a
    LIMIT order) makes [place_order] raise at once: no broker call, no
    sleep, no retry whatever [retry_attempts] is, and no result dict. *)
Theorem bad_cells_are_not_retried (e : stock_entry) (N D : Z) (st : state World) :
  convertible rt e = false ->
  exists ex, place_order env rt e N D st = (Raise ex, st).
Proof.
  unfold convertible, place_order. intros Hc.
  destruct (to_int rt (quantity e)) as [q | ex] eqn:Hq.
  - destruct (limit_price_of rt e) as [lp | ex] eqn:Hlp; [discriminate |].
    exists ex. exact (place_order_rec_bad_price e _ D st q ex Hq Hlp).
  - exists ex. exact (place_order_rec_bad_quantity env rt e _ D st ex Hq).
Qed.

End RetryFacts.

Lemma first_success_ends_the_retries_witness :
  place_order Mock.topped_up Mock.plain_runtime Mock.reliance 3 2 (State 0%nat [])
  = (Ok (OrderResult true (Some (VStr "240101000000001")) None "NFO:RELIANCE" None),
     State 2%nat
       [EvOrderMargins (make_order_params "NFO:RELIANCE" 10 "MARKET" None); EvMargins;
        EvSleep 2;
        EvOrderMargins (make_order_params "NFO:RELIANCE" 10 "MARKET" None); EvMargins;
        EvPlaceOrder (make_order_params "NFO:RELIANCE" 10 "MARKET" None)]).
Proof.
  eapply (first_success_ends_the_retries Mock.topped_up Mock.plain_runtime
            Mock.reliance 3 2 10 None 1 (State 0%nat [])).
  - reflexivity.
  - reflexivity.
  - reflexivity.
  - lia.
  - reflexivity.
Defined.

Lemma bad_cells_are_not_retried_witness :
  exists ex,
    place_order (Mock.healthy 500 (Mock.watchlist [])) Mock.plain_runtime
      Fixture.garbled 3 2 Mock.start = (Raise ex, Mock.start).
Proof.
  apply (bad_cells_are_not_retried (Mock.healthy 500 (Mock.watchlist []))
           Mock.plain_runtime Fixture.garbled 3 2 Mock.start).
  reflexivity.
Defined.

(** ** Deliveries of a batch *)

Section FanOutFacts.
Context {World : Type}.
Variable env : environment World.
Variable rt : runtime.
Variable nm : notification_manager.
Variable cfg : settings.








End FanOutFacts.


(** ** The lines of the [.env] file *)

Section EnvFileFacts.

Lemma startswith_app (p s : string) : startswith (p ++ s) p = true.
Proof.
  induction p as [| c p IH]; simpl; [reflexivity |].
  now rewrite Ascii.eqb_refl, IH.
Qed.


Lemma env_line_starts_with_key (key value : string) :
  startswith (env_line key value) (key ++ "=") = true.
Proof.
  unfold env_line.
  replace (key ++ "=" ++ value ++ nl) with ((key ++ "=") ++ value ++ nl)
    by apply append_assoc.
  apply startswith_app.
Qed.

Lemma replace_first_not_found (key value : string) (lines : list string) :
  forallb (fun l => negb (startswith l (key ++ "="))) lines = true ->
  replace_first key value lines = (lines, false).
Proof.
  induction lines as [| l lines IH]; simpl; [reflexivity |].
  intros H. apply andb_true_iff in H as [Hl Hrest].
  apply negb_true_iff in Hl. rewrite Hl, (IH Hrest). reflexivity.
Qed.

Lemma replace_first_found (key value : string) (before after : list string) (old : string) :
  forallb (fun l => negb (startswith l (key ++ "="))) before = true ->
  startswith old (key ++ "=") = true ->
  replace_first key value (before ++ old :: after)
  = ((before ++ env_line key value :: after)%list, true).
Proof.
  intros Hb Ho. induction before as [| l before IH]; simpl.
  - now rewrite Ho.
  - simpl in Hb. apply andb_true_iff in Hb as [Hl Hrest].
    apply negb_true_iff in Hl. rewrite Hl, (IH Hrest). reflexivity.
Qed.

(** Every list of lines is of one of the two shapes. *)
Lemma first_match (key : string) (lines : list string) :
  forallb (fun l => negb (startswith l (key ++ "="))) lines = true
  \/ exists before old after,
       lines = (before ++ old :: after)%list
       /\ forallb (fun l => negb (startswith l (key ++ "="))) before = true
       /\ startswith old (key ++ "=") = true.
Proof.
  induction lines as [| l lines IH]; [now left |].
  destruct (startswith l (key ++ "=")) eqn:Hl.
  - right. exists [], l, lines. auto.
  - destruct IH as [Hnone | (before & old & after & -> & Hb & Ho)].
    + left. simpl. now rewrite Hl.
    + right. exists (l :: before), old, after. repeat split; try assumption.
      simpl. now rewrite Hl.
Qed.

Lemma updated_not_found (key value : string) (lines : list string) :
  forallb (fun l => negb (startswith l (key ++ "="))) lines = true ->
  updated_lines key value lines = (lines ++ [env_line key value])%list.
Proof.
  intros Hb. unfold updated_lines.
  now rewrite (replace_first_not_found key value lines Hb).
Qed.

Lemma updated_found (key value : string) (before after : list string) (old : string) :
  forallb (fun l => negb (startswith l (key ++ "="))) before = true ->
  startswith old (key ++ "=") = true ->
  updated_lines key value (before ++ old :: after)
  = (before ++ env_line key value :: after)%list.
Proof.
  intros Hb Ho. unfold updated_lines.
  now rewrite (replace_first_found key value before after old Hb Ho).
Qed.

(** X14. [_update_env_variable] rewrites the first line that starts
    with [KEY=] and no other: the lines before and after it, later lines
    for the same key among them, are written back as they were read.  When
    no line starts with [KEY=], the new line is added after the last one. *)
Theorem only_the_first_match_is_replaced (key value : string)
    (before after : list string) (old : string) :
  forallb (fun l => negb (startswith l (key ++ "="))) before = true ->
  (startswith old (key ++ "=") = true ->
   updated_lines key value (before ++ old :: after)
   = (before ++ env_line key value :: after)%list)
  /\ updated_lines key value before = (before ++ [env_line key value])%list.
Proof.
  intros Hb. split.
  - intros Ho. exact (updated_found key value before after old Hb Ho).
  - exact (updated_not_found key value before Hb).
Qed.

Lemma find_line_skips (key : string) (before rest : list string) :
  forallb (fun l => negb (startswith l (key ++ "="))) before = true ->
  find_line key (before ++ rest) = find_line key rest.
Proof.
  unfold find_line. induction before as [| l before IH]; simpl; [reflexivity |].
  intros H. apply andb_true_iff in H as [Hl Hrest].
  apply negb_true_iff in Hl. rewrite Hl. exact (IH Hrest).
Qed.

(** Looking the key up in the lines that are written back. *)
Lemma find_line_updated (key value : string) (lines : list string) :
  find_line key (updated_lines key value lines) = Some (env_line key value).
Proof.
  destruct (first_match key lines) as [Hnone | (before & old & after & -> & Hb & Ho)].
  - rewrite (updated_not_found key value lines Hnone).
    rewrite (find_line_skips key lines _ Hnone).
    unfold find_line. simpl. now rewrite env_line_starts_with_key.
  - rewrite (updated_found key value before after old Hb Ho).
    rewrite (find_line_skips key before _ Hb).
    unfold find_line. simpl. now rewrite env_line_starts_with_key.
Qed.


(** A name without ["="] is set apart from what follows it by the first
    ["="]: two such names that open the same text are the same name. *)
Lemma same_key (k k2 x : string) :
  without "="%char k = true ->
  without "="%char k2 = true ->
  startswith (k ++ "=" ++ x) (k2 ++ "=") = true ->
  k = k2.
Proof.
  unfold without. revert k2.
  induction k as [| a k IH]; intros [| c k2];
    cbn [append startswith str_contains]; intros Hk Hk2 H.
  - reflexivity.
  - apply andb_true_iff in H as [Hc _]. apply Ascii.eqb_eq in Hc. subst c.
    now rewrite Ascii.eqb_refl in Hk2.
  - apply andb_true_iff in H as [Hc _]. now rewrite Hc in Hk.
  - apply andb_true_iff in H as [Hc H]. apply Ascii.eqb_eq in Hc. subst c.
    apply negb_true_iff, orb_false_iff in Hk as [_ Hk].
    apply negb_true_iff, orb_false_iff in Hk2 as [_ Hk2].
    f_equal. apply IH; [now rewrite Hk | now rewrite Hk2 | exact H].
Qed.





(** *** Reading back what was written *)

Lemma readlines_nil (s : string) : readlines s = [] -> s = EmptyString.
Proof.
  destruct s as [| c s]; [reflexivity |]. simpl.
  destruct (Ascii.eqb c newline); [discriminate |].
  destruct (readlines s); discriminate.
Qed.

(** Writing the lines of a text back gives the text. *)
Lemma writelines_readlines (s : string) : writelines (readlines s) = s.
Proof.
  induction s as [| c s IH]; [reflexivity |]. simpl.
  destruct (Ascii.eqb c newline).
  - simpl. now rewrite IH.
  - destruct (readlines s) as [| l ls] eqn:E.
    + now rewrite (readlines_nil s E).
    + simpl in *. now rewrite IH.
Qed.

Lemma writelines_app (a b : list string) :
  writelines (a ++ b) = writelines a ++ writelines b.
Proof.
  induction a as [| l a IH]; [reflexivity |]. simpl.
  now rewrite IH, append_assoc.
Qed.

Lemma without_app (c : ascii) (a b : string) :
  without c (a ++ b) = without c a && without c b.
Proof.
  unfold without. induction a as [| d a IH]; simpl; [reflexivity |].
  destruct (Ascii.eqb d c); simpl; [reflexivity | exact IH].
Qed.

Lemma without_writelines (c : ascii) (ls : list string) :
  without c (writelines ls) = forallb (without c) ls.
Proof.
  induction ls as [| l ls IH]; [reflexivity |]. simpl.
  now rewrite without_app, IH.
Qed.

Lemma universal_newlines_plain (s : string) :
  without carriage_return s = true -> universal_newlines s = s.
Proof.
  unfold without. induction s as [| c s IH]; [reflexivity |]. simpl.
  destruct (Ascii.eqb c carriage_return); simpl; [discriminate |].
  intros H. now rewrite (IH H).
Qed.

Lemma is_line_app (a b : string) :
  without newline a = true -> is_line (a ++ b) = is_line b.
Proof.
  unfold without. induction a as [| c a IH]; [reflexivity |]. simpl.
  destruct (Ascii.eqb c newline); simpl; [discriminate |]. exact IH.
Qed.

Lemma env_line_is_line (key value : string) :
  without newline key = true ->
  without newline value = true ->
  is_line (env_line key value) = true.
Proof.
  intros Hk Hv. unfold env_line.
  rewrite (is_line_app key _ Hk).
  change ("=" ++ value ++ nl) with (String "="%char (value ++ nl)).
  cbn [is_line]. change (Ascii.eqb "="%char newline) with false. cbn iota.
  now rewrite (is_line_app value _ Hv).
Qed.

Lemma readlines_line_app (l s : string) :
  is_line l = true -> readlines (l ++ s) = l :: readlines s.
Proof.
  induction l as [| c l IH]; [discriminate |]. simpl.
  destruct (Ascii.eqb c newline).
  - destruct l; [reflexivity | discriminate].
  - intros H. now rewrite (IH H).
Qed.

Lemma readlines_open_line (l : string) :
  is_open_line l = true -> readlines l = [l].
Proof.
  unfold is_open_line, without.
  induction l as [| c l IH]; [discriminate |]. simpl.
  destruct (Ascii.eqb c newline); simpl; [discriminate |].
  intros H. destruct l as [| d l]; [reflexivity |].
  now rewrite (IH H).
Qed.

Lemma readlines_one_line (l : string) : is_line l = true -> readlines l = [l].
Proof.
  intros H. pose proof (readlines_line_app l EmptyString H) as E.
  replace (l ++ EmptyString) with l in E; [exact E |].
  clear. induction l as [| c l IH]; simpl; [reflexivity | now rewrite <- IH].
Qed.

(** Reading well-formed lines back gives the lines. *)
Lemma readlines_writelines (ls : list string) :
  lines_ok ls = true -> readlines (writelines ls) = ls.
Proof.
  induction ls as [| l ls IH]; [reflexivity |].
  destruct ls as [| l' ls'].
  - cbn [lines_ok writelines]. intros H.
    replace (l ++ EmptyString) with l
      by (clear; induction l as [| c l IH]; simpl; [reflexivity | now rewrite <- IH]).
    apply orb_true_iff in H as [H | H];
      [now apply readlines_one_line | now apply readlines_open_line].
  - cbn [lines_ok]. intros H. apply andb_true_iff in H as [Hl Hrest].
    cbn [writelines]. rewrite (readlines_line_app l _ Hl). f_equal.
    exact (IH Hrest).
Qed.

Lemma readlines_lines_ok (s : string) : lines_ok (readlines s) = true.
Proof.
  induction s as [| c s IH]; [reflexivity |]. simpl.
  destruct (Ascii.eqb c newline) eqn:Hc.
  - destruct (readlines s) as [| l ls]; cbn [lines_ok is_line]; rewrite Hc;
      [reflexivity | exact IH].
  - destruct (readlines s) as [| l ls].
    + cbn [lines_ok is_line is_open_line]. unfold without. simpl. rewrite Hc.
      reflexivity.
    + destruct ls as [| l' ls'].
      * cbn [lines_ok is_line is_open_line] in *. rewrite Hc.
        unfold without in *. simpl. rewrite Hc. simpl.
        destruct (is_line l); [reflexivity |]. simpl in *.
        destruct l; [discriminate | exact IH].
      * cbn [lines_ok is_line] in *. rewrite Hc. exact IH.
Qed.

Lemma full_lines_are_ok (ls : list string) :
  forallb is_line ls = true -> lines_ok ls = true.
Proof.
  induction ls as [| l ls IH]; [reflexivity |]. simpl.
  intros H. apply andb_true_iff in H as [Hl Hrest].
  destruct ls; [now rewrite Hl | now rewrite Hl, (IH Hrest)].
Qed.

(** A text that ends with a line end is made of full lines. *)
Lemma closed_text_has_full_lines (s : string) :
  endswith_char s newline = true -> forallb is_line (readlines s) = true.
Proof.
  induction s as [| c s IH]; [discriminate |].
  destruct s as [| d s].
  - cbn [endswith_char readlines]. intros Hc. rewrite Hc.
    cbn [forallb is_line]. now rewrite Hc.
  - intros H. change (endswith_char (String d s) newline = true) in H.
    specialize (IH H). remember (String d s) as t eqn:Et. cbn [readlines].
    destruct (Ascii.eqb c newline) eqn:Hc.
    + cbn [forallb is_line]. rewrite Hc. exact IH.
    + destruct (readlines t) as [| l ls] eqn:E.
      * apply readlines_nil in E. congruence.
      * cbn [forallb is_line] in *. now rewrite Hc.
Qed.

Lemma replace_a_line (before after : list string) (x y : string) :
  lines_ok (before ++ x :: after) = true ->
  is_line y = true ->
  lines_ok (before ++ y :: after) = true.
Proof.
  intros Hx Hy. induction before as [| b before IH].
  - simpl in *. destruct after; [now rewrite Hy |].
    apply andb_true_iff in Hx as [_ Hrest]. now rewrite Hy.
  - change (lines_ok (b :: (before ++ x :: after)%list) = true) in Hx.
    change (lines_ok (b :: (before ++ y :: after)%list) = true).
    cbn [lines_ok] in *.
    destruct (before ++ x :: after)%list as [| u us] eqn:Ex;
      [now destruct before |].
    destruct (before ++ y :: after)%list as [| v vs] eqn:Ey;
      [now destruct before |].
    apply andb_true_iff in Hx as [Hb Hrest]. rewrite Hb. exact (IH Hrest).
Qed.

(** The lines written back are well-formed when the new line is added
    to a text that is empty or closed, or takes the place of a line. *)
Lemma updated_lines_ok (key value text : string) :
  without newline key = true ->
  without newline value = true ->
  text = EmptyString \/ endswith_char text newline = true
  \/ existsb (fun l => startswith l (key ++ "=")) (readlines text) = true ->
  lines_ok (updated_lines key value (readlines text)) = true.
Proof.
  intros Hk Hv Hshape.
  pose proof (env_line_is_line key value Hk Hv) as Hnew.
  destruct (first_match key (readlines text))
    as [Hnone | (before & old & after & E & Hb & Ho)].
  - rewrite (updated_not_found key value _ Hnone).
    apply full_lines_are_ok. rewrite forallb_app. cbn [forallb]. rewrite Hnew.
    destruct Hshape as [-> | [Hend | Hfound]].
    + reflexivity.
    + now rewrite (closed_text_has_full_lines text Hend).
    + exfalso. apply existsb_exists in Hfound as (l & Hin & Hl).
      rewrite forallb_forall in Hnone. specialize (Hnone l Hin).
      now rewrite Hl in Hnone.
  - rewrite E, (updated_found key value before after old Hb Ho).
    apply (replace_a_line before after old); [| exact Hnew].
    rewrite <- E. apply readlines_lines_ok.
Qed.

Lemma updated_lines_keep (P : string -> bool) (key value : string) (lines : list string) :
  P (env_line key value) = true ->
  forallb P lines = true ->
  forallb P (updated_lines key value lines) = true.
Proof.
  intros Hnew Hall.
  destruct (first_match key lines) as [Hnone | (before & old & after & -> & Hb & Ho)].
  - rewrite (updated_not_found key value lines Hnone), forallb_app. cbn.
    now rewrite Hall, Hnew.
  - rewrite (updated_found key value before after old Hb Ho).
    rewrite forallb_app in *. cbn in *.
    apply andb_true_iff in Hall as [H1 H2]. apply andb_true_iff in H2 as [_ H2].
    now rewrite H1, Hnew, H2.
Qed.

Lemma env_line_without (c : ascii) (key value : string) :
  without c key = true -> without c value = true ->
  Ascii.eqb "="%char c = false -> Ascii.eqb newline c = false ->
  without c (env_line key value) = true.
Proof.
  intros Hk Hv He Hn. unfold env_line.
  rewrite !without_app, Hk, Hv. unfold without, nl.
  change (ascii_of_nat 10) with newline. cbn [str_contains].
  now rewrite He, Hn.
Qed.

(** X17. A saved value can be read back.  For a name and a value
    without a line end in them, and an [.env] text that already has a line
    for the name, or is empty, or ends with a line end: a reader of the file
    that [_update_env_variable] wrote finds [KEY=value] as the first line
    that starts with [KEY=]. *)
Theorem saved_value_is_read_back (key value text : string) :
  plain key = true ->
  plain value = true ->
  without carriage_return text = true ->
  text = EmptyString \/ endswith_char text newline = true
  \/ existsb (fun l => startswith l (key ++ "=")) (readlines text) = true ->
  find_line key (reread (writelines (updated_lines key value (readlines text))))
  = Some (env_line key value).
Proof.
  unfold plain. intros Hk Hv Ht Hshape.
  apply andb_true_iff in Hk as [Hkn Hkr]. apply andb_true_iff in Hv as [Hvn Hvr].
  unfold reread.
  rewrite universal_newlines_plain.
  - rewrite (readlines_writelines _ (updated_lines_ok key value text Hkn Hvn Hshape)).
    apply find_line_updated.
  - rewrite without_writelines. apply updated_lines_keep.
    + now apply env_line_without.
    + rewrite <- without_writelines, writelines_readlines. exact Ht.
Qed.

(** *** A last line that is not closed *)

Lemma length_append (a b : string) :
  String.length (a ++ b) = (String.length a + String.length b)%nat.
Proof. induction a as [| c a IH]; simpl; [reflexivity | now rewrite IH]. Qed.

Lemma split_at_equals (a : string) :
  without "="%char a = false ->
  exists a1 a2, a = a1 ++ "=" ++ a2 /\ without "="%char a1 = true.
Proof.
  unfold without. induction a as [| c a IH]; [discriminate |].
  cbn [str_contains]. destruct (Ascii.eqb c "="%char) eqn:Hc.
  - intros _. apply Ascii.eqb_eq in Hc. subst c. now exists EmptyString, a.
  - intros H. destruct (IH H) as (a1 & a2 & -> & H1).
    exists (String c a1), a2. split; [reflexivity |].
    cbn [str_contains]. now rewrite Hc.
Qed.

(** Text put in front of [KEY=...] hides it, unless that text has a
    [KEY=] of its own. *)
Lemma glued_no_match (key a x : string) :
  a <> EmptyString ->
  without "="%char key = true ->
  startswith a (key ++ "=") = false ->
  startswith (a ++ key ++ "=" ++ x) (key ++ "=") = false.
Proof.
  intros Ha Hk Hno.
  destruct (startswith (a ++ key ++ "=" ++ x) (key ++ "=")) eqn:E; [| reflexivity].
  exfalso. destruct (without "="%char a) eqn:Hwa.
  - assert (Hak : without "="%char (a ++ key) = true)
      by now rewrite without_app, Hwa, Hk.
    rewrite <- append_assoc in E.
    pose proof (same_key (a ++ key) key x Hak Hk E) as Heq.
    apply (f_equal String.length) in Heq. rewrite length_append in Heq.
    destruct a; [now apply Ha | simpl in Heq; lia].
  - destruct (split_at_equals a Hwa) as (a1 & a2 & -> & H1).
    rewrite !append_assoc in E. cbn [append] in E.
    pose proof (same_key a1 key _ H1 Hk E) as ->.
    rewrite <- append_assoc, startswith_app in Hno. discriminate.
Qed.

(** Where the text ends inside a line, what is written after it goes on
    that line. *)
Lemma readlines_open_end (text l : string) :
  text <> EmptyString ->
  endswith_char text newline = false ->
  is_line l = true ->
  exists init last,
    last <> EmptyString
    /\ readlines text = (init ++ [last])%list
    /\ readlines (text ++ l) = (init ++ [(last ++ l)%string])%list.
Proof.
  intros Hne Hend Hl. induction text as [| c s IH]; [now elim Hne |].
  destruct s as [| d s].
  - cbn [endswith_char] in Hend. exists [], (String c EmptyString).
    cbn [readlines append]. rewrite Hend, (readlines_one_line l Hl).
    repeat split. discriminate.
  - change (endswith_char (String d s) newline = false) in Hend.
    destruct (IH ltac:(discriminate) Hend) as (init & last & Hlast & E1 & E2).
    remember (String d s) as t eqn:Et.
    change (String c t ++ l) with (String c (t ++ l)). cbn [readlines].
    rewrite E1, E2. destruct (Ascii.eqb c newline).
    + exists (String c EmptyString :: init), last. repeat split. exact Hlast.
    + destruct init as [| i init].
      * exists [], (String c last). repeat split. discriminate.
      * exists (String c i :: init), last. repeat split. exact Hlast.
Qed.

Lemma find_line_none (key : string) (lines : list string) :
  find_line key lines = None <->
  forallb (fun l => negb (startswith l (key ++ "="))) lines = true.
Proof.
  unfold find_line. induction lines as [| l lines IH]; simpl; [tauto |].
  destruct (startswith l (key ++ "=")); simpl; [| exact IH].
  split; discriminate.
Qed.

(** X18. An [.env] file whose last line has no line end loses the
    saved value.  When the file is not empty, does not end with a line end
    and holds no line for the name, [_update_env_variable] writes the old
    text followed at once by [KEY=value]: the pair lands on the old last
    line, and no line of the file that was written starts with [KEY=]. *)
Theorem open_last_line_swallows_the_value (key value text : string) :
  plain key = true ->
  plain value = true ->
  without "="%char key = true ->
  without carriage_return text = true ->
  text <> EmptyString ->
  endswith_char text newline = false ->
  find_line key (readlines text) = None ->
  writelines (updated_lines key value (readlines text)) = text ++ env_line key value
  /\ find_line key (reread (text ++ env_line key value)) = None.
Proof.
  unfold plain. intros Hk Hv Hke Ht Hne Hend Hnone.
  apply andb_true_iff in Hk as [Hkn Hkr]. apply andb_true_iff in Hv as [Hvn Hvr].
  apply find_line_none in Hnone. split.
  - rewrite (updated_not_found key value _ Hnone), writelines_app.
    rewrite writelines_readlines. cbn [writelines].
    f_equal. clear. generalize (env_line key value) as l.
    induction l as [| c l IH]; simpl; [reflexivity | now rewrite IH].
  - unfold reread. rewrite universal_newlines_plain.
    + destruct (readlines_open_end text (env_line key value) Hne Hend
                  (env_line_is_line key value Hkn Hvn))
        as (init & last & Hlast & E1 & E2).
      rewrite E2. rewrite E1, forallb_app in Hnone.
      apply andb_true_iff in Hnone as [Hinit Hl]. cbn [forallb] in Hl.
      rewrite andb_true_r in Hl. apply negb_true_iff in Hl.
      apply find_line_none. rewrite forallb_app, Hinit. cbn [forallb andb].
      rewrite andb_true_r. apply negb_true_iff.
      exact (glued_no_match key last (value ++ nl) Hlast Hke Hl).
    + rewrite without_app, Ht. apply env_line_without; try assumption; reflexivity.
Qed.

End EnvFileFacts.

Lemma only_the_first_match_is_replaced_witness :
  updated_lines "ACCESS_TOKEN" "fresh"
    [Fixture.key_line; Fixture.stale_line; Fixture.spare_line]
  = [Fixture.key_line; env_line "ACCESS_TOKEN" "fresh"; Fixture.spare_line]
  /\ updated_lines "ACCESS_TOKEN" "fresh" [Fixture.key_line]
     = [Fixture.key_line; env_line "ACCESS_TOKEN" "fresh"].
Proof.
  destruct (only_the_first_match_is_replaced "ACCESS_TOKEN" "fresh"
              [Fixture.key_line] [Fixture.spare_line] Fixture.stale_line eq_refl)
    as [Hfound Hnew].
  split; [exact (Hfound eq_refl) | exact Hnew].
Defined.


Lemma saved_value_is_read_back_witness :
  find_line "ACCESS_TOKEN"
    (reread (writelines (updated_lines "ACCESS_TOKEN" "fresh"
                           (readlines (Fixture.key_line ++ Fixture.stale_line)))))
  = Some (env_line "ACCESS_TOKEN" "fresh").
Proof.
  apply (saved_value_is_read_back "ACCESS_TOKEN" "fresh"
           (Fixture.key_line ++ Fixture.stale_line)).
  - reflexivity.
  - reflexivity.
  - reflexivity.
  - right. left. reflexivity.
Defined.

Lemma open_last_line_swallows_the_value_witness :
  writelines (updated_lines "ACCESS_TOKEN" "fresh" (readlines "API_KEY=key"))
  = "API_KEY=key" ++ env_line "ACCESS_TOKEN" "fresh"
  /\ find_line "ACCESS_TOKEN"
       (reread ("API_KEY=key" ++ env_line "ACCESS_TOKEN" "fresh")) = None.
Proof.
  apply (open_last_line_swallows_the_value "ACCESS_TOKEN" "fresh" "API_KEY=key").
  - reflexivity.
  - reflexivity.
  - reflexivity.
  - reflexivity.
  - discriminate.
  - reflexivity.
  - reflexivity.
Defined.

(** ** The access token *)

Section TokenFacts.
Context {W : Type}.
Variable sys : system W.
Variable self : auth_manager.

Lemma tokens_set_app (a b : list syscall) :
  tokens_set (a ++ b) = (tokens_set a ++ tokens_set b)%list.
Proof. unfold tokens_set. apply flat_map_app. Qed.

Lemma env_assign_lookup (key value : string) (vars vars' : environment_variables) :
  env_assign key value vars = Ok vars' ->
  vars' = (key, value) :: vars /\ env_lookup key vars' = Some value.
Proof.
  unfold env_assign. intros Hvars.
  destruct (String.eqb key "" || str_contains "="%char key); [discriminate |].
  destruct (str_contains Ascii.zero key || str_contains Ascii.zero value);
    [discriminate |].
  injection Hvars as <-. simpl. now rewrite String.eqb_refl.
Qed.

(** The run of [_update_env_variable], step by step. *)
Lemma update_env_run (key value : string) (st : state (process W)) :
  _update_env_variable sys self key value st
  = match env_assign key value (environ (world st)) with
    | Raise e => (Raise e, st)
    | Ok vars =>
        let p := world st in
        let path := env_file_path self in
        match sys_read_text sys path (outside p) with
        | (Raise e, w) =>
            (Raise e,
             State (Process w vars (access_token p) (syscalls p ++ [SysReadText path]))
                   (trace st))
        | (Ok text, w) =>
            let written := writelines (updated_lines key value (readlines text)) in
            let (r, w') := sys_write_text sys path written w in
            (r, State (Process w' vars (access_token p)
                         ((syscalls p ++ [SysReadText path])
                          ++ [SysWriteText path written]))
                      (trace st))
        end
    end.
Proof.
  unfold _update_env_variable, bind, putenv, ask.
  destruct (env_assign key value (environ (world st))) as [vars | e]; [| reflexivity].
  cbn [world outside environ access_token syscalls trace].
  destruct (sys_read_text sys (env_file_path self) (outside (world st)))
    as [[text | e] w]; reflexivity.
Qed.

(** X19. The environment is changed before the file is looked at.
    With a name and a value that [os.environ] accepts, [os.environ] holds
    the new value after [_update_env_variable], whatever became of the
    file; when the file cannot be read the call raises what the reading
    raised, and nothing is written. *)
Theorem environ_is_set_before_the_file (key value : string)
    (st : state (process W)) (vars : environment_variables) :
  env_assign key value (environ (world st)) = Ok vars ->
  let (r, st') := _update_env_variable sys self key value st in
  environ (world st') = vars
  /\ env_lookup key (environ (world st')) = Some value
  /\ forall e w,
       sys_read_text sys (env_file_path self) (outside (world st)) = (Raise e, w) ->
       r = Raise e
       /\ syscalls (world st')
          = (syscalls (world st) ++ [SysReadText (env_file_path self)])%list.
Proof.
  intros Hvars. rewrite update_env_run, Hvars. cbn zeta.
  destruct (env_assign_lookup key value _ vars Hvars) as [_ Hlook].
  destruct (sys_read_text sys (env_file_path self) (outside (world st)))
    as [[text | e] w].
  - destruct (sys_write_text sys (env_file_path self) _ w) as [r w'].
    cbn [world environ]. split; [reflexivity | split; [exact Hlook |]].
    intros e w0 H. discriminate.
  - cbn [world environ syscalls]. split; [reflexivity | split; [exact Hlook |]].
    intros e0 w0 H. injection H as <- _. split; reflexivity.
Qed.

(** What [is_token_valid] leaves as it was. *)
Lemma is_token_valid_frame (st : state (process W)) :
  exists b st',
    is_token_valid sys self st = (Ok b, st')
    /\ trace st' = trace st
    /\ environ (world st') = environ (world st)
    /\ access_token (world st') = access_token (world st).
Proof.
  unfold is_token_valid, bind, get_access_token, try_except, tell, ask, lift, ret.
  destruct (access_token (world st)) as [[| c t] |] eqn:Htok;
    try solve [exists false, st; repeat split; auto].
  cbn [world outside environ access_token syscalls trace].
  destruct (sys_profile sys (sys_set_access_token sys (String c t) (outside (world st))))
    as [[profile | e] w]; cbn [world outside environ access_token syscalls trace].
  - destruct (getitem profile "user_name") as [name | e];
      eexists; eexists; repeat split; auto.
  - eexists; eexists; repeat split; auto.
Qed.

(** X20. [is_token_valid] never raises, and says yes only for an
    answer with a user name.  Without a saved token (none, or an empty one)
    the answer is no and nothing is asked of the server.  With a token the
    answer is yes exactly when the profile request made with that token
    answers and the answer has the field [user_name]: a profile without it
    makes an accepted token count as not valid. *)
Theorem is_token_valid_never_raises (st : state (process W)) :
  exists b st',
    is_token_valid sys self st = (Ok b, st')
    /\ (truthy (access_token (world st)) = false -> b = false /\ st' = st)
    /\ (b = true <->
        exists token profile w name,
          access_token (world st) = Some token
          /\ truthy (Some token) = true
          /\ sys_profile sys (sys_set_access_token sys token (outside (world st)))
             = (Ok profile, w)
          /\ getitem profile "user_name" = Ok name).
Proof.
  unfold is_token_valid, bind, get_access_token, try_except, tell, ask, lift, ret.
  destruct (access_token (world st)) as [[| c t] |] eqn:Htok.
  - exists false, st. repeat split; try discriminate.
    intros (token & profile & w & name & H & Ht & _). now injection H as <-.
  - cbn [world outside environ access_token syscalls trace].
    destruct (sys_profile sys (sys_set_access_token sys (String c t) (outside (world st))))
      as [[profile | e] w] eqn:Hp;
      cbn [world outside environ access_token syscalls trace].
    + destruct (getitem profile "user_name") as [name | e] eqn:Hn.
      * eexists; eexists; repeat split; try discriminate.
        intros _. exists (String c t), profile, w, name. auto.
      * eexists; eexists; repeat split; try discriminate.
        intros (token & profile' & w' & name & H & _ & Hp' & Hn').
        injection H as <-. rewrite Hp in Hp'. injection Hp' as <- _.
        rewrite Hn in Hn'. discriminate.
    + eexists; eexists; repeat split; try discriminate.
      intros (token & profile' & w' & name & H & _ & Hp' & _).
      injection H as <-. rewrite Hp in Hp'. discriminate.
  - exists false, st. repeat split; try discriminate.
    intros (token & profile & w & name & H & _). discriminate.
Qed.

(** The run of the token exchange once the request token is known. *)
Lemma exchange_run (request_token : option string) (st : state (process W)) :
  generate_access_token_from_request_token sys self request_token st
  = match (if truthy request_token then request_token
           else env_lookup "REQUEST_TOKEN" (environ (world st))) with
    | Some (String c t) =>
        let p := world st in
        let asked := (syscalls p
                      ++ [SysGenerateSession (String c t) (api_secret self)])%list in
        match sys_generate_session sys (String c t) (api_secret self) (outside p) with
        | (Raise e, w) =>
            (Raise e, State (Process w (environ p) (access_token p) asked) (trace st))
        | (Ok data, w) =>
            let st1 := State (Process w (environ p) (access_token p) asked) (trace st) in
            match getitem data "access_token" with
            | Ok (VStr token) =>
                match _update_env_variable sys self "ACCESS_TOKEN" token st1 with
                | (Ok _, st2) =>
                    let q := world st2 in
                    (Ok token,
                     State (Process (sys_set_access_token sys token (outside q))
                              (environ q) (Some token)
                              (syscalls q ++ [SysSetAccessToken token]))
                           (trace st2))
                | (Raise e, st2) => (Raise e, st2)
                end
            | Ok _ => (Raise (Exn "TypeError" "str expected"), st1)
            | Raise e => (Raise e, st1)
            end
        end
    | _ =>
        (Raise (Exn "ValueError"
                  "Request token not provided or not found in environment variables."),
         st)
    end.
Proof.
  unfold generate_access_token_from_request_token, bind, try_except, getenv, ret,
    raise, lift, tell, ask, set_self_access_token.
  destruct (truthy request_token) eqn:Ht.
  - destruct request_token as [[| c t] |]; try discriminate.
    cbn [world outside environ access_token syscalls trace].
    destruct (sys_generate_session sys (String c t) (api_secret self) (outside (world st)))
      as [[data | e] w]; [| reflexivity].
    destruct (getitem data "access_token") as [[| | | | token | |] | e]; try reflexivity.
    destruct (_update_env_variable sys self "ACCESS_TOKEN" token _) as [[[] | e] st2];
      reflexivity.
  - destruct (env_lookup "REQUEST_TOKEN" (environ (world st))) as [[| c t] |];
      try reflexivity.
    cbn [world outside environ access_token syscalls trace].
    destruct (sys_generate_session sys (String c t) (api_secret self) (outside (world st)))
      as [[data | e] w]; [| reflexivity].
    destruct (getitem data "access_token") as [[| | | | token | |] | e]; try reflexivity.
    destruct (_update_env_variable sys self "ACCESS_TOKEN" token _) as [[[] | e] st2];
      reflexivity.
Qed.

(** What [_update_env_variable] leaves as it was. *)
Lemma update_env_frame (key value : string) (st : state (process W)) :
  let (r, st') := _update_env_variable sys self key value st in
  trace st' = trace st
  /\ access_token (world st') = access_token (world st)
  /\ tokens_set (syscalls (world st')) = tokens_set (syscalls (world st)).
Proof.
  rewrite update_env_run.
  destruct (env_assign key value (environ (world st))) as [vars | e]; [| now repeat split].
  cbn zeta.
  destruct (sys_read_text sys (env_file_path self) (outside (world st)))
    as [[text | e] w].
  - destruct (sys_write_text sys (env_file_path self) _ w) as [r w'].
    cbn [world access_token syscalls trace]. rewrite !tokens_set_app. cbn.
    rewrite !app_nil_r. now repeat split.
  - cbn [world access_token syscalls trace]. rewrite !tokens_set_app. cbn.
    rewrite !app_nil_r. now repeat split.
Qed.

(** X21. An exchange that fails leaves the old token in place.
    Whenever [generate_access_token_from_request_token] raises, because no
    request token is known, the server refuses, the answer has no
    [access_token], or the [.env] file cannot be read or written, the
    field [access_token] is what it was and the method has made no call of
    [kite.set_access_token]; no notification is sent from here. *)
Theorem failed_exchange_keeps_the_old_token (request_token : option string)
    (st st' : state (process W)) (e : exn) :
  generate_access_token_from_request_token sys self request_token st = (Raise e, st') ->
  access_token (world st') = access_token (world st)
  /\ tokens_set (syscalls (world st')) = tokens_set (syscalls (world st))
  /\ trace st' = trace st.
Proof.
  rewrite exchange_run.
  destruct (if truthy request_token then request_token
            else env_lookup "REQUEST_TOKEN" (environ (world st))) as [[| c t] |];
    try (intros H; injection H as _ <-; now repeat split).
  cbn zeta.
  destruct (sys_generate_session sys (String c t) (api_secret self) (outside (world st)))
    as [[data | e0] w].
  - set (st1 := State (Process w (environ (world st)) (access_token (world st))
                         (syscalls (world st)
                          ++ [SysGenerateSession (String c t) (api_secret self)]))
                      (trace st)).
    assert (Hst1 : access_token (world st1) = access_token (world st)
                   /\ tokens_set (syscalls (world st1)) = tokens_set (syscalls (world st))
                   /\ trace st1 = trace st).
    { subst st1. cbn [world access_token syscalls trace].
      rewrite tokens_set_app. cbn. rewrite app_nil_r. now repeat split. }
    destruct (getitem data "access_token") as [[| | | | token | |] | e1];
      try (intros H; injection H as _ <-; exact Hst1).
    pose proof (update_env_frame "ACCESS_TOKEN" token st1) as Hframe.
    destruct (_update_env_variable sys self "ACCESS_TOKEN" token st1) as [[[] | e1] st2];
      [discriminate |].
    intros H. injection H as _ <-.
    destruct Hframe as (Ht & Ha & Hs), Hst1 as (Ha1 & Hs1 & Ht1).
    repeat split; congruence.
  - intros H. injection H as _ <-. cbn [world access_token syscalls trace].
    rewrite tokens_set_app. cbn. rewrite app_nil_r. now repeat split.
Qed.


End TokenFacts.

Lemma environ_is_set_before_the_file_witness :
  let (r, st') :=
    _update_env_variable (Fixture.machine Fixture.token_rejected Fixture.new_session)
      Fixture.manager "ACCESS_TOKEN" "fresh"
      (Fixture.boot [] Fixture.credentials (Some "stale")) in
  environ (world st') = ("ACCESS_TOKEN", "fresh") :: Fixture.credentials
  /\ env_lookup "ACCESS_TOKEN" (environ (world st')) = Some "fresh"
  /\ forall e w,
       sys_read_text (Fixture.machine Fixture.token_rejected Fixture.new_session)
         (env_file_path Fixture.manager)
         (outside (world (Fixture.boot [] Fixture.credentials (Some "stale"))))
       = (Raise e, w) ->
       r = Raise e
       /\ syscalls (world st')
          = (syscalls (world (Fixture.boot [] Fixture.credentials (Some "stale")))
             ++ [SysReadText (env_file_path Fixture.manager)])%list.
Proof.
  apply (environ_is_set_before_the_file
           (Fixture.machine Fixture.token_rejected Fixture.new_session)
           Fixture.manager "ACCESS_TOKEN" "fresh"
           (Fixture.boot [] Fixture.credentials (Some "stale"))
           (("ACCESS_TOKEN", "fresh") :: Fixture.credentials)).
  reflexivity.
Defined.

Lemma failed_exchange_keeps_the_old_token_witness :
  exists st',
    generate_access_token_from_request_token
      (Fixture.machine Fixture.token_rejected Fixture.new_session)
      Fixture.manager (Some "once")
      (Fixture.boot [] Fixture.with_request_token (Some "stale"))
    = (Raise Fixture.no_such_file, st')
    /\ access_token (world st') = Some "stale"
    /\ tokens_set (syscalls (world st')) = []
    /\ trace st' = [].
Proof.
  eexists. split; [reflexivity |].
  apply (failed_exchange_keeps_the_old_token
           (Fixture.machine Fixture.token_rejected Fixture.new_session)
           Fixture.manager (Some "once")
           (Fixture.boot [] Fixture.with_request_token (Some "stale"))
           _ Fixture.no_such_file).
  reflexivity.
Defined.


(** ** Starting the application *)

Section StartupFacts.
Context {W : Type}.
Variable sys : system W.

Local Open Scope run_scope.

Lemma silent_ret {A} (a : A) : silent (ret (World := process W) a).
Proof. intros st. reflexivity. Qed.

Lemma silent_raise {A} (e : exn) : silent (raise (World := process W) (A := A) e).
Proof. intros st. reflexivity. Qed.

Lemma silent_lift {A} (r : result A) : silent (lift (World := process W) r).
Proof. intros st. reflexivity. Qed.

Lemma silent_bind {A B} (m : Run.M (process W) A) (k : A -> Run.M (process W) B) :
  silent m -> (forall a, silent (k a)) -> silent (bind m k).
Proof.
  intros Hm Hk st. unfold bind. specialize (Hm st).
  destruct (m st) as [[a | e] st1]; simpl in *; [| exact Hm].
  now rewrite (Hk a st1).
Qed.

Lemma silent_try {A} (body : Run.M (process W) A) (handler : exn -> Run.M (process W) A) :
  silent body -> (forall e, silent (handler e)) -> silent (try_except body handler).
Proof.
  intros Hm Hk st. unfold try_except. specialize (Hm st).
  destruct (body st) as [[a | e] st1]; simpl in *; [exact Hm |].
  now rewrite (Hk e st1).
Qed.

Lemma silent_ask {A} (c : syscall) (f : W -> result A * W) : silent (ask c f).
Proof. intros st. unfold ask. now destruct (f (outside (world st))). Qed.

Lemma silent_tell (c : syscall) (f : W -> W) : silent (tell c f).
Proof. apply silent_ask. Qed.

Lemma silent_getenv (name : string) : silent (getenv (W := W) name).
Proof. intros st. reflexivity. Qed.

Lemma silent_putenv (key value : string) : silent (putenv (W := W) key value).
Proof.
  intros st. unfold putenv.
  now destruct (env_assign key value (environ (world st))).
Qed.

Lemma silent_load_dotenv (path : string) : silent (load_dotenv sys path).
Proof. intros st. reflexivity. Qed.

Ltac silence :=
  repeat first
    [ apply silent_ret | apply silent_raise | apply silent_lift
    | apply silent_ask | apply silent_tell | apply silent_getenv
    | apply silent_putenv | apply silent_load_dotenv
    | apply silent_bind; [| intros ?]
    | apply silent_try; [| intros ?]
    | match goal with
      | |- silent (if ?b then _ else _) => destruct b
      | |- silent (match ?x with _ => _ end) => destruct x
      | |- silent (fun st => _) => intros ?; reflexivity
      end ].

Lemma silent_update_env (self : auth_manager) (key value : string) :
  silent (_update_env_variable sys self key value).
Proof. unfold _update_env_variable. silence. Qed.

Lemma silent_is_token_valid (self : auth_manager) : silent (is_token_valid sys self).
Proof. unfold is_token_valid, get_access_token. silence. Qed.

Lemma silent_exchange (self : auth_manager) (request_token : option string) :
  silent (generate_access_token_from_request_token sys self request_token).
Proof.
  unfold generate_access_token_from_request_token, set_self_access_token.
  silence; apply silent_update_env.
Qed.

Lemma silent_auth_manager_init (path : string) : silent (auth_manager_init sys path).
Proof. unfold auth_manager_init. silence. Qed.

Lemma silent_setup_clients ee et sender password recipients token chat :
  silent (_setup_clients sys ee et sender password recipients token chat).
Proof. unfold _setup_clients. silence. Qed.

Lemma silent_notification_manager_init (path : string) :
  silent (notification_manager_init sys path).
Proof. unfold notification_manager_init. silence. Qed.

Lemma silent_setup_logging (log_dir : string) : silent (setup_logging sys log_dir).
Proof. unfold setup_logging. silence. Qed.

Lemma silent_build_components (config_dir log_dir : string) :
  silent (build_components sys config_dir log_dir).
Proof.
  unfold build_components. silence;
    first [ apply silent_setup_logging | apply silent_auth_manager_init
          | apply silent_notification_manager_init ].
Qed.

Lemma notify_failure_run (nm : notification_manager) (msg : string)
    (st : state (process W)) :
  notify_authentication_failure nm msg st
  = (Ok tt, State (world st) (trace st ++ failure_report nm msg)).
Proof.
  unfold notify_authentication_failure, failure_report.
  now rewrite send_notification_run.
Qed.

(** X23. A start that fails before the broker is asked is not
    notified.  When the log directory cannot be made, the [.env] file is
    missing and has no template, or the API key or secret is missing,
    [TradeMaster.__init__] raises what the step raised and nothing is sent:
    neither an e-mail, nor a Telegram message, nor a logged notification. *)
Theorem early_failures_are_not_notified (config_dir log_dir : string)
    (st st0 : state (process W)) (e : exn) :
  build_components sys config_dir log_dir st = (Raise e, st0) ->
  trade_master_init sys config_dir log_dir st = (Raise e, st0)
  /\ trace st0 = trace st.
Proof.
  intros H. split.
  - unfold trade_master_init, bind. now rewrite H.
  - pose proof (silent_build_components config_dir log_dir st) as Hs.
    now rewrite H in Hs.
Qed.

(** X24. A missing request token is reported twice.  When the
    components are built, the saved token is not valid and [REQUEST_TOKEN]
    is not set, [TradeMaster.__init__] raises the [ValueError] of
    [_setup_kite_client], after two authentication-failure notifications
    with the same text: one from [_setup_kite_client] before it raises,
    one from the handler of [__init__]. *)
Theorem missing_request_token_is_reported_twice (config_dir log_dir : string)
    (st st0 st1 : state (process W)) (am : auth_manager) (nm : notification_manager) :
  build_components sys config_dir log_dir st = (Ok (am, nm), st0) ->
  is_token_valid sys am st0 = (Ok false, st1) ->
  truthy (env_lookup "REQUEST_TOKEN" (environ (world st1))) = false ->
  trade_master_init sys config_dir log_dir st
  = (Raise (Exn "ValueError" no_request_token),
     State (world st1)
       (trace st ++ failure_report nm no_request_token
        ++ failure_report nm no_request_token)).
Proof.
  intros Hb Hv Hr.
  pose proof (silent_build_components config_dir log_dir st) as Hs0.
  rewrite Hb in Hs0. cbn [snd] in Hs0.
  pose proof (silent_is_token_valid am st0) as Hs1.
  rewrite Hv in Hs1. cbn [snd] in Hs1.
  unfold trade_master_init, bind at 1. rewrite Hb.
  unfold bind at 1, try_except, _setup_kite_client, bind at 1. rewrite Hv.
  unfold bind at 1, getenv at 1. cbn [world]. rewrite Hr.
  unfold bind at 1. rewrite notify_failure_run.
  unfold raise at 1, bind at 1. cbn [exn_msg]. rewrite notify_failure_run.
  unfold raise. cbn [world trace]. rewrite Hs1, Hs0, <- app_assoc. reflexivity.
Qed.

(** X25. A failed token exchange is reported once.  When the
    components are built, the saved token is not valid, [REQUEST_TOKEN] is
    set and the exchange raises, [TradeMaster.__init__] raises the same
    exception after one authentication-failure notification that carries
    its text. *)
Theorem failed_exchange_is_reported_once (config_dir log_dir : string)
    (st st0 st1 st2 : state (process W)) (am : auth_manager)
    (nm : notification_manager) (e : exn) :
  build_components sys config_dir log_dir st = (Ok (am, nm), st0) ->
  is_token_valid sys am st0 = (Ok false, st1) ->
  truthy (env_lookup "REQUEST_TOKEN" (environ (world st1))) = true ->
  generate_access_token_from_request_token sys am
    (env_lookup "REQUEST_TOKEN" (environ (world st1))) st1 = (Raise e, st2) ->
  trade_master_init sys config_dir log_dir st
  = (Raise e, State (world st2) (trace st ++ failure_report nm (exn_msg e))).
Proof.
  intros Hb Hv Hr Hx.
  pose proof (silent_build_components config_dir log_dir st) as Hs0.
  rewrite Hb in Hs0. cbn [snd] in Hs0.
  pose proof (silent_is_token_valid am st0) as Hs1.
  rewrite Hv in Hs1. cbn [snd] in Hs1.
  pose proof (silent_exchange am (env_lookup "REQUEST_TOKEN" (environ (world st1))) st1)
    as Hs2.
  rewrite Hx in Hs2. cbn [snd] in Hs2.
  unfold trade_master_init, bind at 1. rewrite Hb.
  unfold bind at 1, try_except, _setup_kite_client, bind at 1. rewrite Hv.
  unfold bind at 1, getenv at 1. cbn [world]. rewrite Hr.
  unfold bind at 1. rewrite Hx.
  unfold bind at 1. rewrite notify_failure_run.
  unfold raise. cbn [world trace]. now rewrite Hs2, Hs1, Hs0.
Qed.

(** X26. E-mail needs no recipient.  [NotificationManager.__init__]
    never raises and sends nothing.  E-mail is on exactly when its switch
    reads "true" in any case and both the sender and the password are set
    and not empty: the list of recipients has no say, since splitting any
    text (the empty one too) gives a list that is not empty.  Telegram is
    on exactly when its switch is on, the bot token and the chat id are set
    and not empty, and the bot can be made from the token. *)
Theorem email_needs_no_recipient (path : string) (st : state (process W)) :
  let vars := sys_load_dotenv sys path (outside (world st)) (environ (world st)) in
  exists nm st',
    notification_manager_init sys path st = (Ok nm, st')
    /\ trace st' = trace st
    /\ enable_email nm
       = flag_is_on (env_lookup "ENABLE_EMAIL_NOTIFICATIONS" vars)
         && truthy (env_lookup "EMAIL_SENDER" vars)
         && truthy (env_lookup "EMAIL_PASSWORD" vars)
    /\ (enable_telegram nm = true <->
        flag_is_on (env_lookup "ENABLE_TELEGRAM_NOTIFICATIONS" vars) = true
        /\ truthy (env_lookup "TELEGRAM_CHAT_ID" vars) = true
        /\ exists token w,
             env_lookup "TELEGRAM_BOT_TOKEN" vars = Some token
             /\ truthy (Some token) = true
             /\ sys_telegram_bot sys token (outside (world st)) = (Ok tt, w)).
Proof.
  intros vars.
  unfold notification_manager_init, bind, load_dotenv, getenv, ret.
  cbn [world outside environ access_token syscalls trace]. fold vars.
  unfold _setup_clients.
  set (recipients := str_split ","%char _).
  assert (Hrec : match recipients with [] => true | _ => false end = false).
  { pose proof (split_is_never_empty ","%char
                  (match env_lookup "EMAIL_RECIPIENTS" vars with
                   | Some s => s | None => EmptyString end)) as Hne.
    fold recipients in Hne. now destruct recipients. }
  rewrite Hrec, orb_false_r.
  assert (Hemail : (if flag_is_on (env_lookup "ENABLE_EMAIL_NOTIFICATIONS" vars)
                    then if negb (truthy (env_lookup "EMAIL_SENDER" vars))
                            || negb (truthy (env_lookup "EMAIL_PASSWORD" vars))
                         then false else true
                    else false)
                   = flag_is_on (env_lookup "ENABLE_EMAIL_NOTIFICATIONS" vars)
                     && truthy (env_lookup "EMAIL_SENDER" vars)
                     && truthy (env_lookup "EMAIL_PASSWORD" vars)).
  { destruct (flag_is_on _), (truthy (env_lookup "EMAIL_SENDER" vars)),
      (truthy (env_lookup "EMAIL_PASSWORD" vars)); reflexivity. }
  rewrite Hemail. clear Hrec Hemail.
  unfold bind, try_except, ret, ask.
  destruct (flag_is_on (env_lookup "ENABLE_TELEGRAM_NOTIFICATIONS" vars)).
  - destruct (env_lookup "TELEGRAM_BOT_TOKEN" vars) as [[| c t] |] eqn:Htok;
      cbn [truthy negb orb].
    + eexists; eexists; repeat split; try discriminate.
      intros (_ & _ & token & w & H & Ht & _). injection H as <-. discriminate.
    + destruct (truthy (env_lookup "TELEGRAM_CHAT_ID" vars)) eqn:Hchat;
        cbn [negb].
      * cbn [world outside environ access_token syscalls trace].
        destruct (sys_telegram_bot sys (String c t) (outside (world st)))
          as [[[] | e] w] eqn:Hbot.
        -- eexists; eexists; repeat split. exists (String c t), w. auto.
        -- eexists; eexists; repeat split; try discriminate.
           intros (_ & _ & token & w' & H & _ & Hb). injection H as <-.
           rewrite Hbot in Hb. discriminate.
      * eexists; eexists; repeat split; try discriminate.
        intros (_ & H & _). discriminate.
    + eexists; eexists; repeat split; try discriminate.
      intros (_ & _ & token & w & H & _). discriminate.
  - eexists; eexists; repeat split; try discriminate.
    intros (H & _). discriminate.
Qed.

End StartupFacts.

Lemma early_failures_are_not_notified_witness :
  exists st0,
    trade_master_init (Fixture.machine Fixture.token_rejected Fixture.new_session)
      "config" "logs" (Fixture.boot [] Fixture.credentials None)
    = (Raise (Exn "FileNotFoundError" "Environment template file not found"), st0)
    /\ trace st0 = [].
Proof.
  exists (snd (build_components
                 (Fixture.machine Fixture.token_rejected Fixture.new_session)
                 "config" "logs" (Fixture.boot [] Fixture.credentials None))).
  apply (early_failures_are_not_notified
           (Fixture.machine Fixture.token_rejected Fixture.new_session)
           "config" "logs" (Fixture.boot [] Fixture.credentials None)).
  vm_compute. reflexivity.
Defined.

Lemma missing_request_token_is_reported_twice_witness :
  exists st1,
    trade_master_init (Fixture.machine Fixture.token_rejected Fixture.new_session)
      "config" "logs"
      (Fixture.boot Fixture.env_file (Fixture.with_email ++ Fixture.credentials)%list
         None)
    = (Raise (Exn "ValueError" no_request_token),
       State (world st1)
         ([] ++ failure_report (NotificationManager true false) no_request_token
          ++ failure_report (NotificationManager true false) no_request_token)).
Proof.
  pose (sys := Fixture.machine Fixture.token_rejected Fixture.new_session).
  pose (st := Fixture.boot Fixture.env_file
                (Fixture.with_email ++ Fixture.credentials)%list None).
  pose (st0 := snd (build_components sys "config" "logs" st)).
  exists (snd (is_token_valid sys Fixture.manager st0)).
  apply (missing_request_token_is_reported_twice sys "config" "logs" st st0
           (snd (is_token_valid sys Fixture.manager st0))
           Fixture.manager (NotificationManager true false)).
  - vm_compute. reflexivity.
  - vm_compute. reflexivity.
  - vm_compute. reflexivity.
Defined.

Lemma failed_exchange_is_reported_once_witness :
  exists st2,
    trade_master_init (Fixture.machine Fixture.token_rejected Fixture.token_rejected)
      "config" "logs"
      (Fixture.boot Fixture.env_file
         (Fixture.with_email ++ Fixture.with_request_token)%list None)
    = (Raise (Exn "TokenException" "Incorrect `api_key` or `access_token`."),
       State (world st2)
         ([] ++ failure_report (NotificationManager true false)
                  "Incorrect `api_key` or `access_token`.")).
Proof.
  pose (sys := Fixture.machine Fixture.token_rejected Fixture.token_rejected).
  pose (st := Fixture.boot Fixture.env_file
                (Fixture.with_email ++ Fixture.with_request_token)%list None).
  pose (st0 := snd (build_components sys "config" "logs" st)).
  pose (st1 := snd (is_token_valid sys Fixture.manager st0)).
  exists (snd (generate_access_token_from_request_token sys Fixture.manager
                 (Some "once") st1)).
  apply (failed_exchange_is_reported_once sys "config" "logs" st st0 st1
           (snd (generate_access_token_from_request_token sys Fixture.manager
                   (Some "once") st1))
           Fixture.manager (NotificationManager true false)
           (Exn "TokenException" "Incorrect `api_key` or `access_token`.")).
  - vm_compute. reflexivity.
  - vm_compute. reflexivity.
  - vm_compute. reflexivity.
  - vm_compute. reflexivity.
Defined.
